(** * Servers.py: a shallow embedding of the mock game backend

    The program is a Flask application made of seven request handlers over
    two process-wide dictionaries, [users] and [sessions].  The embedding
    follows the source line by line:

    - Python values that reach the handlers (parsed JSON bodies, dictionary
      keys, response payloads) are the inductive type [json];
    - the two dictionaries are finite maps; [users] is keyed by the Python
      key of the user id (so that [True] and [1] fall on one entry, and a
      list or a dict cannot be a key), [sessions] by the token text;
    - every call of [datetime.now()] is a read of an external clock, threaded
      through a state-and-exception monad together with the stores and the
      log; an exception leaves the mutations made before it in place;
    - Flask turns the value or the exception of a handler into an HTTP
      reply ([serve]);
    - the [@app.route] decorators are a table of rules, read by Werkzeug's
      matcher ([dispatch]). *)

From Stdlib Require Import ZArith String Ascii List Bool Lia.
From stdpp Require Import base option strings gmap pretty.

Open Scope string_scope.

Set Warnings "-register-all".

(** ** Python values and built-ins *)

Module Py.

(** A value as [json.loads] produces it: [None], [bool], [int], [str],
    [list] and [dict] with string keys.  JSON numbers are the integer
    literals (Python [int]); literals with a fraction or an exponent
    (Python [float]) are outside the model.  A [str] is the sequence of its
    characters, each held as its code point in an [ascii]: the model has
    the characters below 256 (Latin-1), text with other characters is
    outside it.  Comparing, joining and replacing text do not look into a
    character; [repr] does, and reads the code point. *)
Inductive json : Type :=
  | JNull
  | JBool (b : bool)
  | JInt (n : Z)
  | JStr (s : string)
  | JArr (items : list json)
  | JObj (fields : list (string * json)).

(** A hashable value as a dictionary key.  Python compares and hashes
    [True] as [1] and [False] as [0]. *)
Inductive pykey : Type :=
  | KNone
  | KInt (n : Z)
  | KStr (s : string).

#[global] Instance pykey_eq_dec : EqDecision pykey.
Proof. solve_decision. Defined.

Definition pykey_code (k : pykey) : unit + Z + string :=
  match k with
  | KNone => inl (inl tt)
  | KInt n => inl (inr n)
  | KStr s => inr s
  end.

Definition pykey_decode (c : unit + Z + string) : pykey :=
  match c with
  | inl (inl _) => KNone
  | inl (inr n) => KInt n
  | inr s => KStr s
  end.

#[global] Instance pykey_countable : Countable pykey.
Proof.
  apply (inj_countable' pykey_code pykey_decode).
  intros [| n | s]; reflexivity.
Defined.

(** [hash(v)]: [None] for the unhashable [list] and [dict], on which a
    dictionary operation raises [TypeError]. *)
Definition to_key (v : json) : option pykey :=
  match v with
  | JNull => Some KNone
  | JBool b => Some (KInt (if b then 1 else 0))
  | JInt n => Some (KInt n)
  | JStr s => Some (KStr s)
  | JArr _ | JObj _ => None
  end.

(** Truth value of a Python object, as tested by [if data:]. *)
Definition py_truthy (v : json) : bool :=
  match v with
  | JNull => false
  | JBool b => b
  | JInt n => negb (n =? 0)%Z
  | JStr s => negb (String.eqb s EmptyString)
  | JArr items => match items with [] => false | _ => true end
  | JObj fields => match fields with [] => false | _ => true end
  end.

(** [d.get(key)] on a dictionary held in insertion order with unique keys. *)
Fixpoint dict_get (key : string) (fields : list (string * json)) : option json :=
  match fields with
  | [] => None
  | (k, v) :: rest => if String.eqb k key then Some v else dict_get key rest
  end.

(** *** Text of a value: [str] and [repr] *)

Definition dquote : ascii := "034"%char.
Definition squote : ascii := "039"%char.
Definition backslash : ascii := "092"%char.

Fixpoint has_char (c : ascii) (s : string) : bool :=
  match s with
  | EmptyString => false
  | String d rest => Ascii.eqb c d || has_char c rest
  end.

Definition hex_digit (n : nat) : ascii :=
  if (n <? 10)%nat then ascii_of_nat (48 + n) else ascii_of_nat (87 + n).

(** One character of [repr] of a [str] delimited by [q].  The characters
    that are not printable ([str.isprintable]) are escaped: below 256
    these are the controls 0-31 and 127-159, the no-break space 160 and
    the soft hyphen 173. *)
Definition repr_char (q c : ascii) : string :=
  let n := nat_of_ascii c in
  if Ascii.eqb c backslash then String backslash (String backslash EmptyString)
  else if Ascii.eqb c q then String backslash (String q EmptyString)
  else if (n =? 10)%nat then String backslash "n"
  else if (n =? 13)%nat then String backslash "r"
  else if (n =? 9)%nat then String backslash "t"
  else if (n <? 32)%nat || ((127 <=? n)%nat && (n <=? 160)%nat) || (n =? 173)%nat
       then String backslash
              (String "x" (String (hex_digit (n / 16)%nat) (String (hex_digit (n mod 16)%nat) EmptyString)))
  else String c EmptyString.

Fixpoint repr_chars (q : ascii) (s : string) : string :=
  match s with
  | EmptyString => EmptyString
  | String c rest => repr_char q c +:+ repr_chars q rest
  end.

(** [repr(s)]: single quotes, unless the text has a single quote and no
    double quote. *)
Definition py_repr_str (s : string) : string :=
  let q := if has_char squote s && negb (has_char dquote s) then dquote else squote in
  String q (repr_chars q s +:+ String q EmptyString).

Fixpoint py_repr (v : json) : string :=
  match v with
  | JNull => "None"
  | JBool true => "True"
  | JBool false => "False"
  | JInt n => pretty n
  | JStr s => py_repr_str s
  | JArr items =>
      "[" +:+
      (fix elems (l : list json) : string :=
         match l with
         | [] => EmptyString
         | [x] => py_repr x
         | x :: rest => py_repr x +:+ ", " +:+ elems rest
         end) items +:+ "]"
  | JObj fields =>
      "{" +:+
      (fix pairs (l : list (string * json)) : string :=
         match l with
         | [] => EmptyString
         | [(k, x)] => py_repr_str k +:+ ": " +:+ py_repr x
         | (k, x) :: rest => py_repr_str k +:+ ": " +:+ py_repr x +:+ ", " +:+ pairs rest
         end) fields +:+ "}"
  end.

(** [str(v)], what an f-string places for [{v}]. *)
Definition py_str (v : json) : string :=
  match v with
  | JStr s => s
  | _ => py_repr v
  end.

(** *** [str.replace] *)

(** [s.startswith(p)] *)
Fixpoint starts_with (p s : string) : bool :=
  match p with
  | EmptyString => true
  | String a p' =>
      match s with
      | EmptyString => false
      | String b s' => Ascii.eqb a b && starts_with p' s'
      end
  end.

(** Left-to-right scan; [skip] counts the characters of a match still to be
    dropped. *)
Fixpoint replace_from (old new : string) (skip : nat) (s : string) : string :=
  match s with
  | EmptyString => EmptyString
  | String c rest =>
      match skip with
      | S k => replace_from old new k rest
      | O =>
          if starts_with old s
          then new +:+ replace_from old new (String.length old - 1) rest
          else String c (replace_from old new 0 rest)
      end
  end.

Fixpoint interleave (new s : string) : string :=
  match s with
  | EmptyString => EmptyString
  | String c rest => String c (new +:+ interleave new rest)
  end.

(** [s.replace(old, new)]: every non-overlapping occurrence, wherever it
    stands. *)
Definition str_replace (old new s : string) : string :=
  match old with
  | EmptyString => new +:+ interleave new s
  | _ => replace_from old new 0 s
  end.

(** [old in s] *)
Fixpoint contains (old s : string) : bool :=
  starts_with old s ||
  match s with
  | EmptyString => false
  | String _ rest => contains old rest
  end.

End Py.

(** ** The clock: [datetime.now()] *)

Module Clock.

(** A naive local [datetime], with the fields [isoformat] prints. *)
Record datetime : Type := {
  year : N; month : N; day : N;
  hour : N; minute : N; second : N;
  microsecond : N
}.

(** The ranges the [datetime] constructor enforces. *)
Definition datetime_ok (d : datetime) : bool :=
  (1 <=? year d)%N && (year d <=? 9999)%N &&
  (1 <=? month d)%N && (month d <=? 12)%N &&
  (1 <=? day d)%N && (day d <=? 31)%N &&
  (hour d <? 24)%N && (minute d <? 60)%N && (second d <? 60)%N &&
  (microsecond d <? 1000000)%N.

Definition digit (n : N) : ascii := ascii_of_N (48 + n mod 10).

(** The [w] lowest decimal digits of [n], most significant first. *)
Fixpoint low_digits (w : nat) (n : N) : string :=
  match w with
  | O => EmptyString
  | S w' => low_digits w' (n / 10) +:+ String (digit n) EmptyString
  end.

(** ["%0wd" % n] *)
Definition zpad (w : nat) (n : N) : string :=
  if (n <? 10 ^ N.of_nat w)%N then low_digits w n else pretty n.

(** [datetime.isoformat()]: the fraction is printed only when the
    microsecond is not zero. *)
Definition isoformat (d : datetime) : string :=
  zpad 4 (year d) +:+ "-" +:+ zpad 2 (month d) +:+ "-" +:+ zpad 2 (day d) +:+ "T" +:+
  zpad 2 (hour d) +:+ ":" +:+ zpad 2 (minute d) +:+ ":" +:+ zpad 2 (second d) +:+
  (if (microsecond d =? 0)%N then EmptyString else "." +:+ zpad 6 (microsecond d)).

(** One reading of the clock: the local date and time, and the text that
    [str(datetime.timestamp())] gives for it (a float, kept as its printed
    form). *)
Record instant : Type := {
  wall : datetime;
  posix : string
}.

(** The extended ISO-8601 form of a date and time,
    [YYYY-MM-DDTHH:MM:SS] with an optional fraction of six digits. *)
Inductive pat : Type :=
  | D
  | C (c : ascii).

Definition is_digit (c : ascii) : bool :=
  (48 <=? nat_of_ascii c)%nat && (nat_of_ascii c <=? 57)%nat.

Fixpoint matches (p : list pat) (s : string) : bool :=
  match p, s with
  | [], EmptyString => true
  | D :: p', String c s' => is_digit c && matches p' s'
  | C k :: p', String c s' => Ascii.eqb k c && matches p' s'
  | _, _ => false
  end.

Definition iso_seconds : list pat :=
  [D; D; D; D; C "-"; D; D; C "-"; D; D; C "T"; D; D; C ":"; D; D; C ":"; D; D]%char.

Definition iso_fraction : list pat := [C "."; D; D; D; D; D; D]%char.

Definition is_iso8601 (s : string) : bool :=
  matches iso_seconds s || matches (iso_seconds ++ iso_fraction) s.

End Clock.

(** ** Flask: requests, headers and replies *)

Module Flask.
Import Py.

Record request : Type := {
  method : string;
  path : string;
  headers : list (string * string);
  args : list (string * string);
  (** the raw body, [request.data] *)
  data : string;
  (** [request.is_json]: the content type announces JSON *)
  is_json : bool;
  (** what [json.loads] makes of the body; [None] when it is not JSON *)
  json_body : option json
}.

Definition lower_ascii (c : ascii) : ascii :=
  let n := nat_of_ascii c in
  if (65 <=? n)%nat && (n <=? 90)%nat then ascii_of_nat (n + 32) else c.

Fixpoint lower (s : string) : string :=
  match s with
  | EmptyString => EmptyString
  | String c rest => String (lower_ascii c) (lower rest)
  end.

(** [request.headers.get(name, default)]: header names compare without
    case, the first match wins. *)
Fixpoint headers_get (name default : string) (hs : list (string * string)) : string :=
  match hs with
  | [] => default
  | (k, v) :: rest =>
      if String.eqb (lower k) (lower name) then v else headers_get name default rest
  end.

(** The exceptions the handlers can meet. *)
Inductive py_exn : Type :=
  | BadRequest
  | UnsupportedMediaType
  | AttributeError
  | TypeError
  | KeyError.

(** What the client receives: the JSON body a handler returned with its
    status, or the error page Flask makes of an exception. *)
Inductive reply : Type :=
  | Reply (status : nat) (body : json)
  | Abort (status : nat).

(** HTTP exceptions carry their code; any other exception is a 500. *)
Definition status_of_exn (e : py_exn) : nat :=
  match e with
  | BadRequest => 400
  | UnsupportedMediaType => 415
  | AttributeError | TypeError | KeyError => 500
  end.

End Flask.

(** ** Servers.py *)

Module Servers.
Import Py Clock Flask.

(** The dictionary stored under [users[user_id]] (lines 97-104). *)
Record user : Type := {
  u_user_id : json;
  u_device_id : json;
  u_created_at : string;
  level : Z;
  coins : Z;
  yokai : list json
}.

(** The dictionary stored under [sessions[session_token]] (lines 89-93). *)
Record session_record : Type := {
  s_user_id : json;
  s_device_id : json;
  s_created_at : string
}.

Definition user_json (u : user) : json :=
  JObj [("user_id", u_user_id u); ("device_id", u_device_id u);
        ("created_at", JStr (u_created_at u)); ("level", JInt (level u));
        ("coins", JInt (coins u)); ("yokai", JArr (yokai u))].

Definition session_json (s : session_record) : json :=
  JObj [("user_id", s_user_id s); ("device_id", s_device_id s);
        ("created_at", JStr (s_created_at s))].

(** What the logger receives, one constructor per [logger] call; the text
    layout of a line is left to the logging format. *)
Inductive log_line : Type :=
  | LogRule
  | LogMethod (m : string)
  | LogPath (p : string)
  | LogHeaders (hs : list (string * string))
  | LogBodyJson (body : json)
  | LogBodyRaw (raw : string)
  | LogQuery (q : list (string * string))
  | LogUnknownEndpoint (p : string).

(** The process state: the two module-level dictionaries (lines 16-17),
    the number of clock readings made so far and the log written so far. *)
Record world : Type := {
  users : gmap pykey user;
  sessions : gmap string session_record;
  reads : nat;
  log : list log_line
}.

(** The state at process start. *)
Definition boot : world :=
  {| users := ∅; sessions := ∅; reads := 0; log := [] |}.

(** *** State and exceptions *)

Inductive outcome (A : Type) : Type :=
  | Returns (a : A)
  | Raises (e : py_exn).
Arguments Returns {A} a.
Arguments Raises {A} e.

Definition M (A : Type) : Type := world -> outcome A * world.

Definition ret {A : Type} (a : A) : M A := fun w => (Returns a, w).

Definition bind {A B : Type} (c : M A) (k : A -> M B) : M B :=
  fun w =>
    match c w with
    | (Returns a, w') => k a w'
    | (Raises e, w') => (Raises e, w')
    end.

Definition raise {A : Type} (e : py_exn) : M A := fun w => (Raises e, w).

(** [try: c  except: h] with a bare [except]. *)
Definition try_except {A : Type} (c h : M A) : M A :=
  fun w =>
    match c w with
    | (Returns a, w') => (Returns a, w')
    | (Raises _, w') => h w'
    end.

Notation "'do' x <- c ; k" := (bind c (fun x => k))
  (at level 10, x name, c at level 100, k at level 200).
Notation "c ;; k" := (bind c (fun _ => k))
  (at level 100, k at level 200, right associativity).

Definition emit (l : log_line) : M unit :=
  fun w => (Returns tt,
            {| users := users w; sessions := sessions w; reads := reads w;
               log := log w ++ [l] |}).

(** [sessions[token] = s] *)
Definition sessions_setitem (token : string) (s : session_record) : M unit :=
  fun w => (Returns tt,
            {| users := users w; sessions := <[token := s]> (sessions w);
               reads := reads w; log := log w |}).

(** [token in sessions] *)
Definition sessions_contains (token : string) : M bool :=
  fun w => (Returns (bool_decide (is_Some (sessions w !! token))), w).

(** [sessions[token]] *)
Definition sessions_getitem (token : string) : M session_record :=
  fun w =>
    match sessions w !! token with
    | Some s => (Returns s, w)
    | None => (Raises KeyError, w)
    end.

(** Hashing the key of a dictionary operation. *)
Definition hash (v : json) : M pykey :=
  match to_key v with
  | Some k => ret k
  | None => raise TypeError
  end.

(** [user_id in users] *)
Definition users_contains (user_id : json) : M bool :=
  do k <- hash user_id;
  fun w => (Returns (bool_decide (is_Some (users w !! k))), w).

(** [users[user_id] = u] *)
Definition users_setitem (user_id : json) (u : user) : M unit :=
  do k <- hash user_id;
  fun w => (Returns tt,
            {| users := <[k := u]> (users w); sessions := sessions w;
               reads := reads w; log := log w |}).

(** [users[user_id]] *)
Definition users_getitem (user_id : json) : M user :=
  do k <- hash user_id;
  fun w =>
    match users w !! k with
    | Some u => (Returns u, w)
    | None => (Raises KeyError, w)
    end.

(** [users.get(user_id, {})], already as the value placed in a reply. *)
Definition users_get (user_id : json) : M json :=
  do k <- hash user_id;
  fun w =>
    match users w !! k with
    | Some u => (Returns (user_json u), w)
    | None => (Returns (JObj []), w)
    end.

(** [request.get_json()]: a body that is not announced as JSON, or that
    does not parse, raises. *)
Definition get_json (req : request) : M json :=
  if is_json req then
    match json_body req with
    | Some v => ret v
    | None => raise BadRequest
    end
  else raise UnsupportedMediaType.

(** [data.get(key, default)]; only a [dict] has the method. *)
Definition data_get (data : json) (key : string) (default : json) : M json :=
  match data with
  | JObj fields =>
      match dict_get key fields with
      | Some v => ret v
      | None => ret default
      end
  | _ => raise AttributeError
  end.

(** Lines 23-38. *)
Definition log_request (req : request) : M unit :=
  emit LogRule ;;
  emit (LogMethod (method req)) ;;
  emit (LogPath (path req)) ;;
  emit (LogHeaders (headers req)) ;;
  (if negb (String.eqb (Flask.data req) EmptyString)
   then try_except
          (do data <- get_json req; emit (LogBodyJson data))
          (emit (LogBodyRaw (Flask.data req)))
   else ret tt) ;;
  emit (LogQuery (args req)) ;;
  emit LogRule.

(** Lines 121 and 164: the token the two protected handlers look up. *)
Definition bearer_token (req : request) : string :=
  str_replace "Bearer " EmptyString
    (headers_get "Authorization" EmptyString (headers req)).

Section Handlers.

(** The readings [datetime.now()] returns, in the order they are made. *)
Context (clock : nat -> instant).

Definition now : M instant :=
  fun w => (Returns (clock (reads w)),
            {| users := users w; sessions := sessions w; reads := S (reads w);
               log := log w |}).

(** Lines 40-49.  [jsonify] leaves the dictionary as it is. *)
Definition create_response (success : bool) (data : json) (message : string) : M json :=
  do t <- now;
  let response :=
    [("success", JBool success);
     ("timestamp", JStr (isoformat (wall t)));
     ("message", JStr message)] in
  let response :=
    if py_truthy data then (response ++ [("data", data)])%list else response in
  ret (JObj response).

(** A handler returns the body and the status; a bare
    [return create_response(...)] is a 200. *)
Definition ok (body : M json) : M (json * nat) :=
  do b <- body; ret (b, 200).

Definition with_status (body : M json) (status : nat) : M (json * nat) :=
  do b <- body; ret (b, status).

(** Lines 55-62. *)
Definition home (req : request) : M (json * nat) :=
  log_request req ;;
  ok (create_response true JNull "Wibble Wobble Private Server - Running").

(** Lines 64-68. *)
Definition health (req : request) : M (json * nat) :=
  log_request req ;;
  ok (create_response true JNull "Server is running").

(** Lines 74-113. *)
Definition login (req : request) : M (json * nat) :=
  log_request req ;;
  do data <- (if is_json req then get_json req else ret (JObj []));
  do device_id <- data_get data "device_id" (JStr "unknown");
  do user_id <- data_get data "user_id" device_id;
  do t_token <- now;
  let session_token := "session_" +:+ py_str user_id +:+ "_" +:+ posix t_token in
  do t_session <- now;
  sessions_setitem session_token
    {| s_user_id := user_id; s_device_id := device_id;
       s_created_at := isoformat (wall t_session) |} ;;
  do present <- users_contains user_id;
  (if negb present
   then do t_user <- now;
        users_setitem user_id
          {| u_user_id := user_id; u_device_id := device_id;
             u_created_at := isoformat (wall t_user);
             level := 1; coins := 1000; yokai := [] |}
   else ret tt) ;;
  do u <- users_getitem user_id;
  ok (create_response true
        (JObj [("session_token", JStr session_token); ("user", user_json u)])
        "Login successful").

(** Lines 115-138. *)
Definition session (req : request) : M (json * nat) :=
  log_request req ;;
  let session_token := bearer_token req in
  do known <- sessions_contains session_token;
  if known
  then do session_data <- sessions_getitem session_token;
       do user_data <- users_get (s_user_id session_data);
       ok (create_response true
             (JObj [("session", session_json session_data); ("user", user_data)])
             EmptyString)
  else with_status (create_response false JNull "Invalid session") 401.

(** Lines 144-156. *)
Definition game_start (req : request) : M (json * nat) :=
  log_request req ;;
  ok (create_response true
        (JObj [("stage_id", JInt 1); ("difficulty", JStr "normal")])
        EmptyString).

(** Lines 158-175. *)
Definition user_profile (req : request) : M (json * nat) :=
  log_request req ;;
  let session_token := bearer_token req in
  do known <- sessions_contains session_token;
  if known
  then do session_data <- sessions_getitem session_token;
       do user_data <- users_get (s_user_id session_data);
       ok (create_response true user_data EmptyString)
  else with_status (create_response false JNull "Unauthorized") 401.

(** Lines 181-193; [path] is what the rule [/<path:path>] captured. *)
Definition catch_all (path : string) (req : request) : M (json * nat) :=
  log_request req ;;
  emit (LogUnknownEndpoint ("/" +:+ path)) ;;
  ok (create_response true (JObj [])
        ("Endpoint /" +:+ path +:+ " - under development")).

(** Flask around a view function: the returned body and status, or the
    error page of the exception. *)
Definition serve (h : M (json * nat)) (w : world) : reply * world :=
  match h w with
  | (Returns (body, status), w') => (Reply status body, w')
  | (Raises e, w') => (Abort (status_of_exn e), w')
  end.

(** One request served by one of the seven view functions. *)
Inductive call : Type :=
  | Home (req : request)
  | Health (req : request)
  | Login (req : request)
  | Session (req : request)
  | GameStart (req : request)
  | UserProfile (req : request)
  | CatchAll (path : string) (req : request).

Definition view (c : call) : M (json * nat) :=
  match c with
  | Home req => home req
  | Health req => health req
  | Login req => login req
  | Session req => session req
  | GameStart req => game_start req
  | UserProfile req => user_profile req
  | CatchAll p req => catch_all p req
  end.

Definition handle (c : call) (w : world) : reply * world := serve (view c) w.

(** The state after a sequence of requests. *)
Fixpoint run (cs : list call) (w : world) : world :=
  match cs with
  | [] => w
  | c :: rest => run rest (handle c w).2
  end.

(** The replies to a sequence of requests. *)
Fixpoint replies (cs : list call) (w : world) : list reply :=
  match cs with
  | [] => []
  | c :: rest => (handle c w).1 :: replies rest (handle c w).2
  end.

End Handlers.

(** *** Reading a reply *)

Definition returned {A : Type} (o : outcome A) : option A :=
  match o with
  | Returns a => Some a
  | Raises _ => None
  end.

Definition reply_status (r : reply) : nat :=
  match r with
  | Reply status _ => status
  | Abort status => status
  end.

Definition reply_field (key : string) (r : reply) : option json :=
  match r with
  | Reply _ (JObj fields) => dict_get key fields
  | _ => None
  end.

Definition json_field (key : string) (v : json) : option json :=
  match v with
  | JObj fields => dict_get key fields
  | _ => None
  end.

(** [data.<key>] of a reply. *)
Definition reply_data (key : string) (r : reply) : option json :=
  match reply_field "data" r with
  | Some d => json_field key d
  | None => None
  end.

End Servers.

(** ** Vocabulary of the statements *)

Module Props.
Import Py Clock Flask Servers.

(** The dictionary line 81 hands to the rest of [login], when there is
    one: the parsed body if it is announced as JSON and is an object, the
    empty dictionary if the body is not announced as JSON. *)
Definition body_dict (req : request) : option (list (string * json)) :=
  if is_json req then
    match json_body req with
    | Some (JObj fields) => Some fields
    | _ => None
    end
  else Some [].

(** The identifiers as the specification words them: the [device_id] field,
    or the text [unknown]; the [user_id] field, or else the device id. *)
Definition expected_device_id (fields : list (string * json)) : json :=
  match dict_get "device_id" fields with
  | Some v => v
  | None => JStr "unknown"
  end.

Definition expected_user_id (fields : list (string * json)) : json :=
  match dict_get "user_id" fields with
  | Some v => v
  | None => expected_device_id fields
  end.

(** The token text of line 88. *)
Definition token_text (user_id : json) (t : instant) : string :=
  "session_" +:+ py_str user_id +:+ "_" +:+ posix t.

(** The specification's reading of the [Authorization] header: one leading
    [Bearer ] is dropped, anything else is left as it is. *)
Definition strip_bearer_prefix (h : string) : string :=
  if starts_with "Bearer " h
  then String.substring 7 (String.length h - 7) h
  else h.

(** The specification's condition for the [data] field: the argument is
    not null and is not an empty string, list or dictionary. *)
Definition non_empty_non_null (v : json) : Prop :=
  v <> JNull /\ v <> JStr EmptyString /\ v <> JArr [] /\ v <> JObj [].

(** [bool] and [int] values: the ones Python can find equal without their
    being the same ([True == 1]). *)
Definition is_number (v : json) : bool :=
  match v with
  | JBool _ | JInt _ => true
  | _ => false
  end.

(** The values Python takes for false in [if data:]. *)
Definition falsy (v : json) : Prop :=
  v = JNull \/ v = JBool false \/ v = JInt 0 \/ v = JStr EmptyString \/
  v = JArr [] \/ v = JObj [].

(** The envelope of every reply. *)
Definition envelope (success : bool) (timestamp message : string)
    (data : list (string * json)) : json :=
  JObj ([("success", JBool success); ("timestamp", JStr timestamp);
         ("message", JStr message)] ++ data)%list.

(** The handler answered with a body of its own (no exception). *)
Definition answered (r : reply) : bool :=
  match r with
  | Reply _ _ => true
  | Abort _ => false
  end.

(** The states the process can be in: those a sequence of requests leads
    to from the empty stores. *)
Definition reachable (clock : nat -> instant) (w : world) : Prop :=
  exists cs, w = run clock cs boot.

(** Every token in [sessions] has the form of line 88. *)
Definition tokens_prefixed (w : world) : Prop :=
  forall tok s, sessions w !! tok = Some s -> starts_with "session_" tok = true.

(** Every user is filed under the key of its own [user_id]. *)
Definition well_keyed (w : world) : Prop :=
  forall k u, users w !! k = Some u -> to_key (u_user_id u) = Some k.

(** Every session's [user_id] is a key of [users]. *)
Definition sessions_have_users (w : world) : Prop :=
  forall tok s, sessions w !! tok = Some s ->
    exists k, to_key (s_user_id s) = Some k /\ is_Some (users w !! k).

(** A login request whose user id, if the body yields a dictionary at all,
    can be hashed; any other request. *)
Definition hashable_login (c : call) : Prop :=
  match c with
  | Login req =>
      forall fields, body_dict req = Some fields ->
        is_Some (to_key (expected_user_id fields))
  | _ => True
  end.

(** A computation that leaves the two dictionaries alone, whatever its
    outcome. *)
Definition keeps_stores {A : Type} (c : M A) : Prop :=
  forall w, users (c w).2 = users w /\ sessions (c w).2 = sessions w.

End Props.

(** ** Concrete requests and clocks *)

Module Samples.
Import Py Clock Flask Servers.

(** A clock that advances by ten microseconds at every reading. *)
Definition sample_clock (n : nat) : instant :=
  let us := ((111111 + 10 * N.of_nat n) mod 1000000)%N in
  {| wall := {| year := 2024; month := 5; day := 17;
                hour := 9; minute := 30; second := 0; microsecond := us |};
     posix := "1715938200." +:+ zpad 6 us |}.

(** A clock too coarse to tell two requests apart. *)
Definition frozen_clock (n : nat) : instant := sample_clock 0.

Definition quoted (s : string) : string :=
  String dquote (s +:+ String dquote EmptyString).

(** [POST path] with [Content-Type: application/json] and the raw body
    [raw], which parses to [body]. *)
Definition post_json (p raw : string) (body : option json) : request :=
  {| method := "POST"; path := p;
     headers := [("Content-Type", "application/json")]; args := [];
     data := raw; is_json := true; json_body := body |}.

(** A request without body and with the given headers. *)
Definition bare (m p : string) (hs : list (string * string)) : request :=
  {| method := m; path := p; headers := hs; args := [];
     data := EmptyString; is_json := false; json_body := None |}.

Definition with_auth (m p auth : string) : request :=
  bare m p [("Authorization", auth)].

(** [{"user_id": "p1"}] *)
Definition login_p1 : request :=
  post_json "/login" ("{" +:+ quoted "user_id" +:+ ": " +:+ quoted "p1" +:+ "}")
    (Some (JObj [("user_id", JStr "p1")])).

(** [{"user_id": "Bearer x"}] *)
Definition login_bearer_x : request :=
  post_json "/login" ("{" +:+ quoted "user_id" +:+ ": " +:+ quoted "Bearer x" +:+ "}")
    (Some (JObj [("user_id", JStr "Bearer x")])).

(** [{"user_id": ["p1"]}] *)
Definition login_list_id : request :=
  post_json "/api/login"
    ("{" +:+ quoted "user_id" +:+ ": [" +:+ quoted "p1" +:+ "]}")
    (Some (JObj [("user_id", JArr [JStr "p1"])])).

(** A body that is not JSON and is not announced as JSON. *)
Definition login_plain_text : request :=
  {| method := "POST"; path := "/login";
     headers := [("Content-Type", "text/plain")]; args := [];
     data := "device=%%%"; is_json := false; json_body := None |}.

(** [{"user_id": ] cut short: announced as JSON, not JSON. *)
Definition login_truncated : request :=
  post_json "/api/login" ("{" +:+ quoted "user_id" +:+ ": ") None.

End Samples.

(** ** Vocabulary for the log and for the stored records *)

Module Journal.
Import Py Clock Flask Servers Props.

(** The request a call carries. *)
Definition call_request (c : call) : request :=
  match c with
  | Home req | Health req | Login req | Session req
  | GameStart req | UserProfile req | CatchAll _ req => req
  end.

(** The line lines 30-35 write for the body: none for an empty body, the
    parsed value when the body is announced as JSON and parses, the raw
    bytes otherwise. *)
Definition body_lines (req : request) : list log_line :=
  if String.eqb (Flask.data req) EmptyString then []
  else if is_json req then
    match json_body req with
    | Some v => [LogBodyJson v]
    | None => [LogBodyRaw (Flask.data req)]
    end
  else [LogBodyRaw (Flask.data req)].

(** What one request leaves in the log. *)
Definition request_lines (req : request) : list log_line :=
  ([LogRule; LogMethod (method req); LogPath (path req); LogHeaders (headers req)]
   ++ body_lines req ++ [LogQuery (args req); LogRule])%list.

(** The warning of line 186. *)
Definition call_warning (c : call) : list log_line :=
  match c with
  | CatchAll p _ => [LogUnknownEndpoint ("/" +:+ p)]
  | _ => []
  end.

(** A computation that writes nothing to the log, whatever its outcome. *)
Definition silent {A : Type} (c : M A) : Prop :=
  forall w, log (c w).2 = log w.

(** The record lines 97-104 file for a new user. *)
Definition new_user (user_id device_id : json) (t : instant) : user :=
  {| u_user_id := user_id; u_device_id := device_id;
     u_created_at := isoformat (wall t);
     level := 1; coins := 1000; yokai := [] |}.

(** The starting values of lines 101-103. *)
Definition has_defaults (u : user) : Prop :=
  level u = 1%Z /\ coins u = 1000%Z /\ yokai u = [].

(** A token is made of the text of its session's user id and of the
    timestamp of a clock reading the process has made; the session's time
    of creation is the reading after that one (lines 88-93). *)
Definition tokens_from_clock (clock : nat -> instant) (w : world) : Prop :=
  forall tok s, sessions w !! tok = Some s ->
    exists n, n < reads w /\
      tok = "session_" +:+ py_str (s_user_id s) +:+ "_" +:+ posix (clock n) /\
      s_created_at s = isoformat (wall (clock (S n))).

(** A computation that never turns the count of clock readings back. *)
Definition advances {A : Type} (c : M A) : Prop :=
  forall w, reads w <= reads (c w).2.

End Journal.

(** ** More concrete states and requests *)

Module MoreSamples.
Import Py Clock Flask Servers Props Samples.

(** A state with a session whose user is not in [users]. *)
Definition orphan_world : world :=
  {| users := ∅;
     sessions := {[ "session_ghost_1715938200.5" :=
                      {| s_user_id := JStr "ghost"; s_device_id := JStr "phone";
                         s_created_at := "2024-05-17T09:30:00.500000" |} ]};
     reads := 0; log := [] |}.

(** [{"user_id": "p1", "device_id": "tablet"}] *)
Definition login_p1_tablet : request :=
  post_json "/api/auth/login"
    ("{" +:+ quoted "user_id" +:+ ": " +:+ quoted "p1" +:+ ", " +:+
     quoted "device_id" +:+ ": " +:+ quoted "tablet" +:+ "}")
    (Some (JObj [("user_id", JStr "p1"); ("device_id", JStr "tablet")])).

(** [[1, 2]]: JSON, but not an object. *)
Definition login_array_body : request :=
  post_json "/login" "[1, 2]" (Some (JArr [JInt 1; JInt 2])).

End MoreSamples.

(** ** The URL map: the [@app.route] decorators under Werkzeug's matcher *)

Module Routing.
Import Py Clock Flask Servers.

(** The seven view functions as endpoints. *)
Inductive endpoint : Type :=
  | EpHome
  | EpHealth
  | EpLogin
  | EpSession
  | EpGameStart
  | EpUserProfile
  | EpCatchAll.

(** A rule of the map: a fixed path, or the rule [/<path:path>] ([None]),
    with the methods its decorator lists. *)
Record rule : Type := {
  pattern : option string;
  methods : list string;
  rule_endpoint : endpoint
}.

(** The named routes (lines 55, 64, 74-76, 115-116, 144-145, 158-159). *)
Definition named_rules : list rule :=
  [ {| pattern := Some "/"; methods := ["GET"; "POST"]; rule_endpoint := EpHome |};
    {| pattern := Some "/api/health"; methods := ["GET"]; rule_endpoint := EpHealth |};
    {| pattern := Some "/login"; methods := ["POST"]; rule_endpoint := EpLogin |};
    {| pattern := Some "/api/auth/login"; methods := ["POST"]; rule_endpoint := EpLogin |};
    {| pattern := Some "/api/login"; methods := ["POST"]; rule_endpoint := EpLogin |};
    {| pattern := Some "/session"; methods := ["POST"; "GET"];
       rule_endpoint := EpSession |};
    {| pattern := Some "/api/session"; methods := ["POST"; "GET"];
       rule_endpoint := EpSession |};
    {| pattern := Some "/game/start"; methods := ["POST"]; rule_endpoint := EpGameStart |};
    {| pattern := Some "/api/game/start"; methods := ["POST"];
       rule_endpoint := EpGameStart |};
    {| pattern := Some "/user/profile"; methods := ["GET"];
       rule_endpoint := EpUserProfile |};
    {| pattern := Some "/api/user/profile"; methods := ["GET"];
       rule_endpoint := EpUserProfile |} ].

(** Line 181. *)
Definition catch_all_rule : rule :=
  {| pattern := None; methods := ["GET"; "POST"; "PUT"; "DELETE"; "PATCH"];
     rule_endpoint := EpCatchAll |}.

(** The matcher tries fixed paths before converters. *)
Definition url_map : list rule := (named_rules ++ [catch_all_rule])%list.

Fixpoint mem (m : string) (l : list string) : bool :=
  match l with
  | [] => false
  | x :: rest => String.eqb x m || mem m rest
  end.

(** The methods a rule answers: Flask adds [HEAD] where [GET] is listed,
    and [OPTIONS] to every rule. *)
Definition allowed (r : rule) : list string :=
  (methods r ++ (if mem "GET" (methods r) then ["HEAD"] else []) ++ ["OPTIONS"])%list.

Definition upper_ascii (c : ascii) : ascii :=
  let n := nat_of_ascii c in
  if (97 <=? n)%nat && (n <=? 122)%nat then ascii_of_nat (n - 32) else c.

(** [method.upper()], written for the letters a to z; no other character
    becomes a letter of the method names above, so the comparison with
    them is the one the matcher makes. *)
Fixpoint upper (s : string) : string :=
  match s with
  | EmptyString => EmptyString
  | String c rest => String (upper_ascii c) (upper rest)
  end.

(** [s.lstrip("/")] *)
Fixpoint lstrip_slash (s : string) : string :=
  match s with
  | EmptyString => EmptyString
  | String c rest => if Ascii.eqb c "/" then lstrip_slash rest else s
  end.

(** The path handed to the matcher: one leading slash, however many the
    request has. *)
Definition path_part (path_info : string) : string :=
  match path_info with
  | EmptyString => EmptyString
  | _ => "/" +:+ lstrip_slash path_info
  end.

(** The [path] converter, the expression [[^/].*?] up to the end of the
    text: a first character that is not a slash, and no line feed after
    it. *)
Definition path_converter (p : string) : bool :=
  match p with
  | EmptyString => false
  | String c rest => negb (Ascii.eqb c "/") && negb (has_char "010"%char rest)
  end.

(** What a rule captures from a path: nothing for a fixed path that is
    the path, the text behind the first slash for the converter rule. *)
Definition captures (r : rule) (path : string) : option string :=
  match pattern r with
  | Some fixed => if String.eqb fixed path then Some EmptyString else None
  | None =>
      match path with
      | String "/" p => if path_converter p then Some p else None
      | _ => None
      end
  end.

Inductive lookup_result : Type :=
  | Found (ep : endpoint) (arg : string)
  | Missed (have_match_for : list string).

(** One pass of the matcher: the first rule that captures the path and
    answers the method; the methods of the rules that capture the path
    without answering the method are kept for the 405. *)
Fixpoint lookup (m path : string) (rules : list rule) (seen : list string)
  : lookup_result :=
  match rules with
  | [] => Missed seen
  | r :: rest =>
      match captures r path with
      | Some arg =>
          if mem m (allowed r) then Found (rule_endpoint r) arg
          else lookup m path rest (seen ++ allowed r)%list
      | None => lookup m path rest seen
      end
  end.


Definition call_of (ep : endpoint) (arg : string) (req : request) : call :=
  match ep with
  | EpHome => Home req
  | EpHealth => Health req
  | EpLogin => Login req
  | EpSession => Session req
  | EpGameStart => GameStart req
  | EpUserProfile => UserProfile req
  | EpCatchAll => CatchAll arg req
  end.

(** Where a request goes. *)
Inductive routed : Type :=
  | ToView (c : call)
  | AutoOptions
  | Redirect (location : string)
  | MethodNotAllowed
  | NotFound.

(** [MapAdapter.match] (Werkzeug 2.2 and later) on this map, and Flask's
    automatic answer to [OPTIONS].  A path that no rule takes is tried
    once more with doubled slashes merged, which ends in a redirect; an
    empty path is sent to [/] when the method is one [/] answers. *)
Definition dispatch (req : request) : routed :=
  let m := upper (method req) in
  match path_part (path req) with
  | EmptyString =>
      if mem m ["GET"; "POST"; "HEAD"; "OPTIONS"] then Redirect "/" else NotFound
  | path =>
      match lookup m path url_map [] with
      | Found ep arg =>
          if String.eqb (method req) "OPTIONS" then AutoOptions
          else ToView (call_of ep arg req)
      | Missed seen =>
          let merged := str_replace "//" "/" path in
          match lookup m merged url_map seen with
          | Found _ _ => Redirect merged
          | Missed [] => NotFound
          | Missed _ => MethodNotAllowed
          end
      end
  end.

(** What the client receives: the reply of a view under Flask, or the
    answer of the router itself (200 with an empty body for the automatic
    [OPTIONS], 308, 404, 405). *)
Inductive served : Type :=
  | Viewed (r : reply)
  | Routed (status : nat).



(** The application: routing, then the view.  The router's own answers
    run no view, so they log nothing and change nothing. *)
Definition app (clock : nat -> instant) (req : request) (w : world)
  : served * world :=
  match dispatch req with
  | ToView c => (Viewed (handle clock c w).1, (handle clock c w).2)
  | AutoOptions => (Routed 200, w)
  | Redirect _ => (Routed 308, w)
  | MethodNotAllowed => (Routed 405, w)
  | NotFound => (Routed 404, w)
  end.

End Routing.

(** ** Facts about the built-ins *)

Module PyFacts.
Import Py.

(** Without an occurrence of [old], [replace] returns the text itself. *)
Lemma replace_from_absent (old new s : string) :
  contains old s = false -> replace_from old new 0 s = s.
Proof.
  induction s as [| c rest IH]; intros H; [reflexivity |].
  cbn [contains] in H. apply orb_false_iff in H as [Hp Hrest].
  cbn [replace_from]. rewrite Hp. f_equal. apply IH.
  destruct rest; cbn [contains] in *; exact Hrest.
Qed.

Lemma str_replace_absent (old new s : string) :
  contains old s = false -> str_replace old new s = s.
Proof.
  intros H. destruct old as [| a old'].
  - destruct s; cbn in H; discriminate.
  - unfold str_replace. apply replace_from_absent, H.
Qed.

(** A leading [Bearer ] is removed, and the scan goes on behind it. *)
Lemma replace_bearer_prefix (t : string) :
  str_replace "Bearer " EmptyString ("Bearer " +:+ t) =
  str_replace "Bearer " EmptyString t.
Proof. reflexivity. Qed.

Lemma append_inj_l (a b c : string) : a +:+ b = a +:+ c -> b = c.
Proof.
  induction a as [| x a IH]; cbn; intros H; [exact H |].
  injection H as H. apply IH, H.
Qed.

Lemma starts_with_append (a b : string) : starts_with a (a +:+ b) = true.
Proof.
  induction a as [| x a IH]; [reflexivity |].
  change (String x a +:+ b) with (String x (a +:+ b)).
  cbn [starts_with]. rewrite Ascii.eqb_refl. exact IH.
Qed.

End PyFacts.

(** ** Facts about the clock *)

Module ClockFacts.
Import Clock.

Lemma is_digit_digit (n : N) : is_digit (digit n) = true.
Proof.
  unfold digit.
  assert (Hlt : (n mod 10 < 10)%N) by (apply N.mod_lt; discriminate).
  destruct (n mod 10)%N as [| p]; [reflexivity |].
  do 4 (destruct p as [p | p |]; try reflexivity; try lia).
Qed.

Lemma matches_app (p1 p2 : list pat) (s1 s2 : string) :
  matches p1 s1 = true -> matches p2 s2 = true ->
  matches (p1 ++ p2) (s1 +:+ s2) = true.
Proof.
  revert s1. induction p1 as [| x p1 IH]; intros s1 H1 H2.
  - destruct s1; [exact H2 | discriminate].
  - destruct s1 as [| c s1]; [destruct x; discriminate |].
    change (String c s1 +:+ s2) with (String c (s1 +:+ s2)).
    destruct x; cbn [matches app] in *;
      apply andb_true_iff in H1 as [Hc H1];
      rewrite Hc, (IH s1 H1 H2); reflexivity.
Qed.

(** [low_digits w n] is made of [w] digits. *)
Lemma matches_low_digits (w : nat) (n : N) :
  matches (repeat D w) (low_digits w n) = true.
Proof.
  revert n. induction w as [| w IH]; intros n; [reflexivity |].
  cbn [repeat low_digits]. rewrite repeat_cons.
  apply matches_app; [apply IH |].
  cbn. rewrite is_digit_digit. reflexivity.
Qed.

Lemma zpad_small (w : nat) (n : N) :
  (n < 10 ^ N.of_nat w)%N -> zpad w n = low_digits w n.
Proof.
  intros H. unfold zpad. apply N.ltb_lt in H. rewrite H. reflexivity.
Qed.

(** What [isoformat] prints for a well-formed [datetime] is an ISO-8601
    date and time. *)
Lemma isoformat_iso8601 (d : datetime) :
  datetime_ok d = true -> is_iso8601 (isoformat d) = true.
Proof.
  unfold datetime_ok. intros H.
  repeat (apply andb_true_iff in H as [H ?]).
  repeat match goal with
         | X : (_ <=? _)%N = true |- _ => apply N.leb_le in X
         | X : (_ <? _)%N = true |- _ => apply N.ltb_lt in X
         end.
  unfold isoformat.
  rewrite !zpad_small by (cbn; lia).
  unfold is_iso8601. apply orb_true_iff.
  destruct (microsecond d =? 0)%N.
  - left.
    change iso_seconds with
      (repeat D 4 ++ [C "-"%char] ++ repeat D 2 ++ [C "-"%char] ++ repeat D 2 ++
       [C "T"%char] ++ repeat D 2 ++ [C ":"%char] ++ repeat D 2 ++ [C ":"%char] ++
       repeat D 2 ++ [])%list.
    repeat (apply matches_app; [first [apply matches_low_digits | reflexivity] |]).
    reflexivity.
  - right.
    change (iso_seconds ++ iso_fraction)%list with
      (repeat D 4 ++ [C "-"%char] ++ repeat D 2 ++ [C "-"%char] ++ repeat D 2 ++
       [C "T"%char] ++ repeat D 2 ++ [C ":"%char] ++ repeat D 2 ++ [C ":"%char] ++
       repeat D 2 ++ [C "."%char] ++ repeat D 6)%list.
    repeat (apply matches_app; [first [apply matches_low_digits | reflexivity] |]).
    apply matches_low_digits.
Qed.

End ClockFacts.

(** ** Facts about the handlers *)

Module HandlerFacts.
Import Py Clock Flask Servers Props PyFacts ClockFacts.

(** *** Computations that leave the dictionaries alone *)

Lemma keeps_ret {A : Type} (a : A) : keeps_stores (ret a).
Proof. intros w. split; reflexivity. Qed.

Lemma keeps_raise {A : Type} (e : py_exn) : keeps_stores (@raise A e).
Proof. intros w. split; reflexivity. Qed.

Lemma keeps_emit (l : log_line) : keeps_stores (emit l).
Proof. intros w. split; reflexivity. Qed.

Lemma keeps_now (clock : nat -> instant) : keeps_stores (now clock).
Proof. intros w. split; reflexivity. Qed.

Lemma keeps_bind {A B : Type} (c : M A) (k : A -> M B) :
  keeps_stores c -> (forall a, keeps_stores (k a)) -> keeps_stores (bind c k).
Proof.
  intros Hc Hk w. unfold bind.
  specialize (Hc w). destruct (c w) as [[a | e] w1]; cbn in Hc |- *.
  - destruct (Hk a w1) as [Hu Hs]. destruct Hc as [Hu1 Hs1].
    split; congruence.
  - exact Hc.
Qed.

Lemma keeps_try_except {A : Type} (c h : M A) :
  keeps_stores c -> keeps_stores h -> keeps_stores (try_except c h).
Proof.
  intros Hc Hh w. unfold try_except.
  specialize (Hc w). destruct (c w) as [[a | e] w1]; cbn in Hc |- *.
  - exact Hc.
  - destruct (Hh w1) as [Hu Hs]. destruct Hc as [Hu1 Hs1].
    split; congruence.
Qed.

Lemma keeps_if {A : Type} (b : bool) (c d : M A) :
  keeps_stores c -> keeps_stores d -> keeps_stores (if b then c else d).
Proof. destruct b; auto. Qed.

Lemma keeps_hash (v : json) : keeps_stores (hash v).
Proof. unfold hash. destruct (to_key v); [apply keeps_ret | apply keeps_raise]. Qed.

Lemma keeps_get_json (req : request) : keeps_stores (get_json req).
Proof.
  unfold get_json. destruct (is_json req); [| apply keeps_raise].
  destruct (json_body req); [apply keeps_ret | apply keeps_raise].
Qed.

Lemma keeps_sessions_contains (tok : string) : keeps_stores (sessions_contains tok).
Proof. intros w. split; reflexivity. Qed.

Lemma keeps_sessions_getitem (tok : string) : keeps_stores (sessions_getitem tok).
Proof.
  intros w. unfold sessions_getitem.
  destruct (sessions w !! tok); split; reflexivity.
Qed.

Lemma keeps_users_get (v : json) : keeps_stores (users_get v).
Proof.
  unfold users_get. apply keeps_bind; [apply keeps_hash |].
  intros k w. destruct (users w !! k); split; reflexivity.
Qed.

Create HintDb stores discriminated.
#[export] Hint Resolve keeps_ret keeps_raise keeps_emit keeps_now keeps_hash
  keeps_get_json keeps_sessions_contains keeps_sessions_getitem
  keeps_users_get : stores.

(** Peels a computation built from the operations above. *)
Ltac keeps :=
  repeat first
    [ solve [auto with stores]
    | apply keeps_bind; [| intros ?]
    | apply keeps_try_except
    | apply keeps_if ].

Lemma keeps_log_request (req : request) : keeps_stores (log_request req).
Proof. unfold log_request. keeps. Qed.

Lemma keeps_create_response (clock : nat -> instant) success data message :
  keeps_stores (create_response clock success data message).
Proof. unfold create_response. keeps. Qed.

#[export] Hint Resolve keeps_log_request keeps_create_response : stores.

Lemma keeps_home clock req : keeps_stores (home clock req).
Proof. unfold home, ok. keeps. Qed.

Lemma keeps_health clock req : keeps_stores (health clock req).
Proof. unfold health, ok. keeps. Qed.

Lemma keeps_game_start clock req : keeps_stores (game_start clock req).
Proof. unfold game_start, ok. keeps. Qed.

Lemma keeps_session clock req : keeps_stores (session clock req).
Proof. unfold session, ok, with_status. keeps. Qed.

Lemma keeps_user_profile clock req : keeps_stores (user_profile clock req).
Proof. unfold user_profile, ok, with_status. keeps. Qed.

Lemma keeps_catch_all clock p req : keeps_stores (catch_all clock p req).
Proof. unfold catch_all, ok. keeps. Qed.

(** Flask adds nothing to the state a view function leaves. *)
Lemma serve_state (h : M (json * nat)) (w : world) : (serve h w).2 = (h w).2.
Proof. unfold serve. destruct (h w) as [[[b st] | e] w1]; reflexivity. Qed.

(** *** The first steps of every handler *)

(** Logging always completes, and touches only the log. *)
Lemma log_request_run (req : request) (w : world) :
  exists w1, log_request req w = (Returns tt, w1) /\
    users w1 = users w /\ sessions w1 = sessions w /\ reads w1 = reads w.
Proof.
  unfold log_request, bind, emit, try_except, get_json, ret, raise.
  destruct (negb (String.eqb (Flask.data req) EmptyString)); cbn.
  - destruct (is_json req); [destruct (json_body req) |]; cbn;
      eexists; (split; [reflexivity | auto]).
  - eexists; (split; [reflexivity | auto]).
Qed.

Lemma create_response_run clock success data message (w : world) :
  create_response clock success data message w =
  (Returns (envelope success (isoformat (wall (clock (reads w)))) message
              (if py_truthy data then [("data", data)] else [])),
   {| users := users w; sessions := sessions w; reads := S (reads w);
      log := log w |}).
Proof.
  unfold create_response, bind, now, ret, envelope.
  destruct (py_truthy data); reflexivity.
Qed.

(** *** [login], outcome by outcome *)

(** Lines 81-85 on a body that yields a dictionary. *)
Lemma login_reads_ids (req : request) (fields : list (string * json)) :
  body_dict req = Some fields ->
  (if is_json req then get_json req else ret (JObj [])) = ret (JObj fields) /\
  data_get (JObj fields) "device_id" (JStr "unknown") = ret (expected_device_id fields) /\
  data_get (JObj fields) "user_id" (expected_device_id fields) =
    ret (expected_user_id fields).
Proof.
  intros Hbody. unfold body_dict, get_json in *. repeat split.
  - destruct (is_json req); [| congruence].
    destruct (json_body req) as [[] |]; congruence.
  - unfold data_get, expected_device_id.
    destruct (dict_get "device_id" fields); reflexivity.
  - unfold data_get, expected_user_id.
    destruct (dict_get "user_id" fields); reflexivity.
Qed.

(** A dictionary body with a hashable user id: the login is answered. *)
Lemma login_returns clock (req : request) (w : world) fields k :
  body_dict req = Some fields ->
  to_key (expected_user_id fields) = Some k ->
  let uid := expected_user_id fields in
  let did := expected_device_id fields in
  let tok := token_text uid (clock (reads w)) in
  exists u ts w',
    login clock req w =
      (Returns (envelope true ts "Login successful"
                  [("data", JObj [("session_token", JStr tok);
                                  ("user", user_json u)])], 200), w') /\
    users w' = <[k := u]> (users w) /\
    sessions w' =
      <[tok := {| s_user_id := uid; s_device_id := did;
                  s_created_at := isoformat (wall (clock (S (reads w)))) |}]>
        (sessions w) /\
    (users w !! k = Some u \/
     users w !! k = None /\
     u = {| u_user_id := uid; u_device_id := did;
            u_created_at := isoformat (wall (clock (S (S (reads w)))));
            level := 1; coins := 1000; yokai := [] |}) /\
    reads w < reads w'.
Proof.
  intros Hbody Hkey uid did tok.
  destruct (login_reads_ids req fields Hbody) as (Hdata & Hdid & Huid).
  destruct (log_request_run req w) as (w1 & Hlog & Hu & Hs & Hr).
  unfold login. unfold bind at 1. rewrite Hlog.
  unfold bind at 1. rewrite Hdata. unfold ret at 1.
  unfold bind at 1. rewrite Hdid. unfold ret at 1.
  unfold bind at 1. rewrite Huid. unfold ret at 1.
  unfold bind, now, sessions_setitem, users_contains, users_setitem,
    users_getitem, hash, ok.
  rewrite Hkey. unfold ret. cbn -[create_response].
  rewrite Hu, Hs, Hr.
  destruct (users w !! k) as [u |] eqn:Hlook; cbn -[create_response].
  - rewrite Hlook. unfold bind. rewrite create_response_run. cbn.
    exists u. eexists. eexists. split; [reflexivity |]. cbn.
    repeat split; [| left; reflexivity | lia].
    symmetry. apply insert_id, Hlook.
  - rewrite lookup_insert_eq. unfold bind. rewrite create_response_run. cbn.
    eexists. eexists. eexists. split; [reflexivity |]. cbn.
    repeat split; [| lia]. right. split; reflexivity.
Qed.

(** A body announced as JSON that does not parse, or that is not an
    object: the login raises before it touches the dictionaries. *)
Lemma login_bad_body clock (req : request) (w : world) :
  body_dict req = None ->
  exists e w',
    login clock req w = (Raises e, w') /\
    (json_body req = None /\ e = BadRequest \/
     json_body req <> None /\ e = AttributeError) /\
    users w' = users w /\ sessions w' = sessions w.
Proof.
  intros Hbody.
  destruct (log_request_run req w) as (w1 & Hlog & Hu & Hs & Hr).
  unfold login. unfold bind at 1. rewrite Hlog.
  unfold body_dict in Hbody. unfold get_json.
  destruct (is_json req); [| discriminate].
  destruct (json_body req) as [[] |]; try discriminate;
    (eexists; eexists; split; [reflexivity |]);
    (split; [first [left; split; [reflexivity | reflexivity]
                   | right; split; [discriminate | reflexivity]] | auto]).
Qed.

(** A user id that cannot be hashed: the session is stored, then the
    membership test of line 96 raises. *)
Lemma login_unhashable clock (req : request) (w : world) fields :
  body_dict req = Some fields ->
  to_key (expected_user_id fields) = None ->
  exists w',
    login clock req w = (Raises TypeError, w') /\
    users w' = users w /\
    sessions w' =
      <[token_text (expected_user_id fields) (clock (reads w)) :=
          {| s_user_id := expected_user_id fields;
             s_device_id := expected_device_id fields;
             s_created_at := isoformat (wall (clock (S (reads w)))) |}]>
        (sessions w).
Proof.
  intros Hbody Hkey.
  destruct (login_reads_ids req fields Hbody) as (Hdata & Hdid & Huid).
  destruct (log_request_run req w) as (w1 & Hlog & Hu & Hs & Hr).
  unfold login. unfold bind at 1. rewrite Hlog.
  unfold bind at 1. rewrite Hdata. unfold ret at 1.
  unfold bind at 1. rewrite Hdid. unfold ret at 1.
  unfold bind at 1. rewrite Huid. unfold ret at 1.
  unfold bind, now, sessions_setitem, users_contains, hash.
  rewrite Hkey. unfold raise. cbn.
  eexists. split; [reflexivity |]. cbn. rewrite Hu, Hs, Hr. split; reflexivity.
Qed.

(** *** Invariants of the stores *)

Lemma token_text_prefixed (uid : json) (t : instant) :
  starts_with "session_" (token_text uid t) = true.
Proof. unfold token_text. apply starts_with_append. Qed.

(** Every view function but [login] leaves the dictionaries alone. *)
Lemma view_keeps clock (c : call) :
  (forall req, c <> Login req) -> keeps_stores (view clock c).
Proof.
  intros Hc. destruct c; cbn [view].
  - apply keeps_home.
  - apply keeps_health.
  - exfalso. eapply Hc. reflexivity.
  - apply keeps_session.
  - apply keeps_game_start.
  - apply keeps_user_profile.
  - apply keeps_catch_all.
Qed.

(** What a call can do to the dictionaries: nothing, or what [login]
    does. *)
Lemma handle_stores clock (c : call) (w : world) :
  let w' := (handle clock c w).2 in
  (users w' = users w /\ sessions w' = sessions w) \/
  exists req fields,
    c = Login req /\ body_dict req = Some fields /\
    sessions w' =
      <[token_text (expected_user_id fields) (clock (reads w)) :=
          {| s_user_id := expected_user_id fields;
             s_device_id := expected_device_id fields;
             s_created_at := isoformat (wall (clock (S (reads w)))) |}]>
        (sessions w) /\
    (to_key (expected_user_id fields) = None /\ users w' = users w /\
     answered (handle clock c w).1 = false
     \/
     exists k u,
       to_key (expected_user_id fields) = Some k /\
       users w' = <[k := u]> (users w) /\
       (users w !! k = Some u \/ u_user_id u = expected_user_id fields)).
Proof.
  cbn zeta. unfold handle. rewrite serve_state.
  destruct c as [req | req | req | req | req | req | p req];
    try (left; apply view_keeps; discriminate).
  cbn [view].
  destruct (body_dict req) as [fields |] eqn:Hbody.
  - right. exists req, fields. split; [reflexivity |]. split; [exact Hbody |].
    destruct (to_key (expected_user_id fields)) as [k |] eqn:Hkey.
    + destruct (login_returns clock req w fields k Hbody Hkey)
        as (u & ts & w' & Hrun & Hu & Hs & Hcase & _).
      unfold serve. rewrite Hrun. cbn. split; [exact Hs |].
      right. exists k, u. split; [reflexivity |]. split; [exact Hu |].
      destruct Hcase as [Hold | [_ ->]]; [left; exact Hold | right; reflexivity].
    + destruct (login_unhashable clock req w fields Hbody Hkey)
        as (w' & Hrun & Hu & Hs).
      unfold serve. rewrite Hrun. cbn. split; [exact Hs |].
      left. auto.
  - left. destruct (login_bad_body clock req w Hbody)
      as (e & w' & Hrun & _ & Hu & Hs).
    rewrite Hrun. cbn. auto.
Qed.

Lemma handle_tokens_prefixed clock (c : call) (w : world) :
  tokens_prefixed w -> tokens_prefixed (handle clock c w).2.
Proof.
  intros Hinv.
  destruct (handle_stores clock c w)
    as [[_ Hs] | (req & fields & _ & _ & Hs & _)];
    intros tok s; rewrite Hs; [apply Hinv |].
  rewrite lookup_insert. case_decide as Htok.
  - intros _. subst tok. apply token_text_prefixed.
  - apply Hinv.
Qed.

Lemma handle_well_keyed clock (c : call) (w : world) :
  well_keyed w -> well_keyed (handle clock c w).2.
Proof.
  intros Hinv.
  destruct (handle_stores clock c w)
    as [[Hu _] | (req & fields & _ & _ & _ & [(_ & Hu & _) | (k & u & Hkey & Hu & Hcase)])];
    intros k' u'; rewrite Hu; try apply Hinv.
  rewrite lookup_insert. case_decide as Hk; [| apply Hinv].
  intros [= <-]. subst k'.
  destruct Hcase as [Hold | Hnew]; [apply Hinv, Hold | congruence].
Qed.

Lemma handle_sessions_have_users clock (c : call) (w : world) :
  hashable_login c ->
  sessions_have_users w -> sessions_have_users (handle clock c w).2.
Proof.
  intros Hc Hinv.
  destruct (handle_stores clock c w)
    as [[Hu Hs] | (req & fields & -> & Hbody & Hs & [(Hkey & _) | (k & u & Hkey & Hu & _)])].
  - intros tok s. rewrite Hs, Hu. apply Hinv.
  - destruct (Hc fields Hbody) as [k Hk]. congruence.
  - intros tok s. rewrite Hs, Hu, lookup_insert. case_decide as Htok.
    + intros [= <-]. exists k. split; [exact Hkey |].
      rewrite lookup_insert_eq. eauto.
    + intros Hlook. destruct (Hinv tok s Hlook) as (k' & Hk' & Hsome).
      exists k'. split; [exact Hk' |].
      apply lookup_insert_is_Some. destruct (decide (k = k')); auto.
Qed.

(** The invariants along a sequence of requests. *)
Lemma run_tokens_prefixed clock (cs : list call) (w : world) :
  tokens_prefixed w -> tokens_prefixed (run clock cs w).
Proof.
  revert w. induction cs as [| c cs IH]; intros w Hinv; [exact Hinv |].
  cbn [run]. apply IH, handle_tokens_prefixed, Hinv.
Qed.

Lemma run_well_keyed clock (cs : list call) (w : world) :
  well_keyed w -> well_keyed (run clock cs w).
Proof.
  revert w. induction cs as [| c cs IH]; intros w Hinv; [exact Hinv |].
  cbn [run]. apply IH, handle_well_keyed, Hinv.
Qed.

Lemma run_sessions_have_users clock (cs : list call) (w : world) :
  Forall hashable_login cs ->
  sessions_have_users w -> sessions_have_users (run clock cs w).
Proof.
  revert w. induction cs as [| c cs IH]; intros w Hcs Hinv; [exact Hinv |].
  inversion Hcs as [| ? ? Hc Hrest]; subst.
  cbn [run]. apply IH; [exact Hrest |].
  apply handle_sessions_have_users; assumption.
Qed.

Lemma boot_tokens_prefixed : tokens_prefixed boot.
Proof. intros tok s H. cbn in H. rewrite lookup_empty in H. discriminate. Qed.

Lemma boot_well_keyed : well_keyed boot.
Proof. intros k u H. cbn in H. rewrite lookup_empty in H. discriminate. Qed.

Lemma boot_sessions_have_users : sessions_have_users boot.
Proof. intros tok s H. cbn in H. rewrite lookup_empty in H. discriminate. Qed.

Lemma reachable_tokens_prefixed clock (w : world) :
  reachable clock w -> tokens_prefixed w.
Proof. intros [cs ->]. apply run_tokens_prefixed, boot_tokens_prefixed. Qed.

Lemma reachable_well_keyed clock (w : world) :
  reachable clock w -> well_keyed w.
Proof. intros [cs ->]. apply run_well_keyed, boot_well_keyed. Qed.

(** *** The protected handlers *)

(** The token is not a key of [sessions]: lines 135-138 and 175. *)
Lemma session_unknown clock (req : request) (w : world) :
  sessions w !! bearer_token req = None ->
  (handle clock (Session req) w).1 =
  Reply 401 (envelope false (isoformat (wall (clock (reads w))))
               "Invalid session" []).
Proof.
  intros Hnone.
  destruct (log_request_run req w) as (w1 & Hlog & Hu & Hs & Hr).
  unfold handle, serve, view, session. cbn zeta.
  remember (bearer_token req) as tok eqn:Htok. clear Htok.
  unfold bind at 1. rewrite Hlog.
  unfold bind at 1, sessions_contains. rewrite Hs, Hnone. cbn -[create_response].
  unfold with_status, bind. rewrite create_response_run, Hr. reflexivity.
Qed.

Lemma user_profile_unknown clock (req : request) (w : world) :
  sessions w !! bearer_token req = None ->
  (handle clock (UserProfile req) w).1 =
  Reply 401 (envelope false (isoformat (wall (clock (reads w))))
               "Unauthorized" []).
Proof.
  intros Hnone.
  destruct (log_request_run req w) as (w1 & Hlog & Hu & Hs & Hr).
  unfold handle, serve, view, user_profile. cbn zeta.
  remember (bearer_token req) as tok eqn:Htok. clear Htok.
  unfold bind at 1. rewrite Hlog.
  unfold bind at 1, sessions_contains. rewrite Hs, Hnone. cbn -[create_response].
  unfold with_status, bind. rewrite create_response_run, Hr. reflexivity.
Qed.

(** The token is a key of [sessions] and its user id hashes: lines
    124-133. *)
Lemma session_known clock (req : request) (w : world) s k :
  sessions w !! bearer_token req = Some s ->
  to_key (s_user_id s) = Some k ->
  (handle clock (Session req) w).1 =
  Reply 200
    (envelope true (isoformat (wall (clock (reads w)))) EmptyString
       [("data",
         JObj [("session", session_json s);
               ("user", match users w !! k with
                        | Some u => user_json u
                        | None => JObj []
                        end)])]).
Proof.
  intros Hsome Hkey.
  destruct (log_request_run req w) as (w1 & Hlog & Hu & Hs & Hr).
  unfold handle, serve, view, session. cbn zeta.
  remember (bearer_token req) as tok eqn:Htok. clear Htok.
  unfold bind at 1. rewrite Hlog.
  unfold bind at 1, sessions_contains. rewrite Hs, Hsome. cbn -[create_response].
  unfold bind at 1, sessions_getitem. rewrite Hs, Hsome.
  unfold bind at 1, users_get, hash. rewrite Hkey.
  unfold bind at 1, ret at 1. rewrite Hu.
  destruct (users w !! k) as [u |]; unfold ok, bind;
    rewrite create_response_run, Hr; reflexivity.
Qed.

(** Lines 167-173. *)
Lemma user_profile_known clock (req : request) (w : world) s k :
  sessions w !! bearer_token req = Some s ->
  to_key (s_user_id s) = Some k ->
  (handle clock (UserProfile req) w).1 =
  Reply 200
    (envelope true (isoformat (wall (clock (reads w)))) EmptyString
       match users w !! k with
       | Some u => [("data", user_json u)]
       | None => []
       end).
Proof.
  intros Hsome Hkey.
  destruct (log_request_run req w) as (w1 & Hlog & Hu & Hs & Hr).
  unfold handle, serve, view, user_profile. cbn zeta.
  remember (bearer_token req) as tok eqn:Htok. clear Htok.
  unfold bind at 1. rewrite Hlog.
  unfold bind at 1, sessions_contains. rewrite Hs, Hsome. cbn -[create_response].
  unfold bind at 1, sessions_getitem. rewrite Hs, Hsome.
  unfold bind at 1, users_get, hash. rewrite Hkey.
  unfold bind at 1, ret at 1. rewrite Hu.
  destruct (users w !! k) as [u |]; unfold ok, bind;
    rewrite create_response_run, Hr; reflexivity.
Qed.

End HandlerFacts.

(** ** The response builder *)

Module Builder.
Import Py Clock Flask Servers Props Samples PyFacts ClockFacts HandlerFacts.

Lemma py_truthy_falsy (v : json) : py_truthy v = false <-> falsy v.
Proof.
  unfold falsy. split.
  - destruct v as [| [] | n | s | [| x l] | [| x l]]; cbn; intros H;
      try discriminate; auto 10.
    + apply negb_false_iff, Z.eqb_eq in H. subst. auto 10.
    + apply negb_false_iff, String.eqb_eq in H. subst. auto 10.
  - intros [-> | [-> | [-> | [-> | [-> | ->]]]]]; reflexivity.
Qed.

Lemma non_empty_non_null_truthy (data : json) :
  is_number data = false ->
  (non_empty_non_null data <-> py_truthy data = true).
Proof.
  unfold non_empty_non_null.
  destruct data as [| b | n | s | [| x l] | [| x l]]; cbn; intros Hn;
    try discriminate; split; intros H; try reflexivity; try discriminate;
    try (repeat split; discriminate);
    try (destruct H as (H1 & H2 & H3 & H4); congruence).
  - destruct s as [| c s]; [| reflexivity].
    destruct H as (_ & H2 & _). congruence.
  - destruct s as [| c s]; [discriminate |]. repeat split; discriminate.
Qed.

(** C9: for every success flag, message and data argument of the kinds
    the builder is given (null, text, a list or a dictionary; numbers and
    booleans are not passed), the response builder produces an object
    containing exactly [success], the clock reading as [timestamp], in
    ISO-8601 form, and [message]; it adds the [data] field if and only if
    [data] is neither null nor empty. *)
Theorem create_response_envelope clock (success : bool) (data : json)
    (message : string) (w : world) :
  datetime_ok (wall (clock (reads w))) = true ->
  is_number data = false ->
  let ts := isoformat (wall (clock (reads w))) in
  let head := [("success", JBool success); ("timestamp", JStr ts);
               ("message", JStr message)] in
  is_iso8601 ts = true /\
  (non_empty_non_null data ->
   returned (create_response clock success data message w).1 =
     Some (JObj (head ++ [("data", data)]))) /\
  (~ non_empty_non_null data ->
   returned (create_response clock success data message w).1 =
     Some (JObj head)).
Proof.
  intros Hok Hkind. cbn zeta.
  pose proof (non_empty_non_null_truthy data Hkind) as Hiff.
  rewrite create_response_run. unfold envelope. cbn [returned fst].
  split; [apply isoformat_iso8601, Hok |].
  destruct (py_truthy data) eqn:Ht; split; intros H.
  - reflexivity.
  - exfalso. apply H, Hiff. reflexivity.
  - apply Hiff in H. discriminate.
  - reflexivity.
Qed.

Lemma create_response_envelope_witness :
  let data := JObj [("stage_id", JInt 1); ("difficulty", JStr "normal")] in
  let ts := isoformat (wall (sample_clock (reads boot))) in
  datetime_ok (wall (sample_clock (reads boot))) = true /\
  is_number data = false /\
  non_empty_non_null data /\
  ~ non_empty_non_null (JObj []) /\
  is_iso8601 ts = true /\
  returned (create_response sample_clock true data EmptyString boot).1 =
    Some (JObj [("success", JBool true); ("timestamp", JStr ts);
                ("message", JStr EmptyString); ("data", data)]) /\
  returned (create_response sample_clock true (JObj []) "ok" boot).1 =
    Some (JObj [("success", JBool true); ("timestamp", JStr ts);
                ("message", JStr "ok")]).
Proof.
  cbn zeta.
  assert (Hfull : non_empty_non_null
            (JObj [("stage_id", JInt 1); ("difficulty", JStr "normal")]))
    by (repeat split; discriminate).
  assert (Hempty : ~ non_empty_non_null (JObj []))
    by (intros (_ & _ & _ & H); apply H; reflexivity).
  split; [reflexivity |]. split; [reflexivity |].
  split; [exact Hfull |]. split; [exact Hempty |].
  destruct (create_response_envelope sample_clock true
              (JObj [("stage_id", JInt 1); ("difficulty", JStr "normal")])
              EmptyString boot eq_refl eq_refl) as (Hiso & Hwith & _).
  destruct (create_response_envelope sample_clock true (JObj []) "ok" boot
              eq_refl eq_refl) as (_ & _ & Hwithout).
  split; [exact Hiso |].
  split; [exact (Hwith Hfull) | exact (Hwithout Hempty)].
Defined.

End Builder.

(** ** The catch-all route *)

Module CatchAllRoute.
Import Py Clock Flask Servers Props Samples PyFacts ClockFacts HandlerFacts.

(** X20.  The catch-all view, once a request is handed to it: whatever
    the captured path, the request and the state, it answers with status
    200 and [success] true (and the message naming the path), and leaves
    the two dictionaries as they are. *)
Theorem catch_all_always_succeeds clock (p : string) (req : request) (w : world) :
  let r := handle clock (CatchAll p req) w in
  r.1 = Reply 200 (envelope true (isoformat (wall (clock (reads w))))
                     ("Endpoint /" +:+ p +:+ " - under development") []) /\
  reply_status r.1 = 200 /\
  reply_field "success" r.1 = Some (JBool true) /\
  users r.2 = users w /\ sessions r.2 = sessions w.
Proof.
  cbn zeta.
  assert (Hreply : (handle clock (CatchAll p req) w).1 =
    Reply 200 (envelope true (isoformat (wall (clock (reads w))))
                 ("Endpoint /" +:+ p +:+ " - under development") [])).
  { destruct (log_request_run req w) as (w1 & Hlog & Hu & Hs & Hr).
    unfold handle, serve, view, catch_all. unfold bind at 1. rewrite Hlog.
    unfold bind at 1, emit. unfold ok, bind.
    rewrite create_response_run. cbn. rewrite Hr. reflexivity. }
  rewrite Hreply. repeat split.
  - unfold handle. rewrite serve_state. apply keeps_catch_all.
  - unfold handle. rewrite serve_state. apply keeps_catch_all.
Qed.

End CatchAllRoute.

(** ** The protected routes *)

Module Protected.
Import Py Clock Flask Servers Props Samples PyFacts ClockFacts HandlerFacts.

Lemma substring_all (h : string) : String.substring 0 (String.length h) h = h.
Proof. induction h as [| c h IH]; [reflexivity |]. cbn. f_equal. exact IH. Qed.

Lemma starts_with_split (p h : string) :
  starts_with p h = true ->
  h = p +:+ String.substring (String.length p) (String.length h - String.length p) h.
Proof.
  revert h. induction p as [| a p IH]; intros h H.
  - cbn [String.length]. rewrite Nat.sub_0_r, substring_all. reflexivity.
  - destruct h as [| c h]; [discriminate |].
    cbn [starts_with] in H. apply andb_true_iff in H as [Hc Hrest].
    apply Ascii.eqb_eq in Hc. subst c.
    change (String a p +:+ ?x) with (String a (p +:+ x)).
    cbn [String.length String.substring Nat.sub]. f_equal. apply IH, Hrest.
Qed.

(** On a header with at most the leading [Bearer ], the handlers' token
    is the one the specification describes. *)
Lemma bearer_agrees_when_single (h : string) :
  contains "Bearer " (strip_bearer_prefix h) = false ->
  str_replace "Bearer " EmptyString h = strip_bearer_prefix h.
Proof.
  unfold strip_bearer_prefix.
  destruct (starts_with "Bearer " h) eqn:Hp; intros Habsent.
  - rewrite (starts_with_split _ _ Hp) at 1.
    rewrite replace_bearer_prefix. apply str_replace_absent, Habsent.
  - apply str_replace_absent, Habsent.
Qed.

Lemma bearer_token_with_auth (m p h : string) :
  bearer_token (with_auth m p h) = str_replace "Bearer " EmptyString h.
Proof. reflexivity. Qed.

(** The token of a request without [Authorization] header is empty, and
    no reachable state files a session under the empty token. *)
Lemma bearer_token_bare (m p : string) : bearer_token (bare m p []) = EmptyString.
Proof. reflexivity. Qed.

Lemma empty_token_never_issued clock (w : world) :
  reachable clock w -> sessions w !! EmptyString = None.
Proof.
  intros Hw. apply reachable_tokens_prefixed in Hw.
  destruct (sessions w !! EmptyString) as [s |] eqn:Hlook; [| reflexivity].
  apply Hw in Hlook. discriminate.
Qed.



(** A token that [sessions] holds, presented so that line 121 reads it
    back, is accepted: status 200, [success] true and the stored user. *)
Lemma issued_token_accepted clock (req : request) (w : world) s k u :
  sessions w !! bearer_token req = Some s ->
  to_key (s_user_id s) = Some k ->
  users w !! k = Some u ->
  let r := (handle clock (Session req) w).1 in
  let r' := (handle clock (UserProfile req) w).1 in
  reply_status r = 200 /\ reply_field "success" r = Some (JBool true) /\
  reply_data "user" r = Some (user_json u) /\
  reply_status r' = 200 /\ reply_field "success" r' = Some (JBool true) /\
  reply_field "data" r' = Some (user_json u).
Proof.
  intros Hs Hk Hu. cbn zeta.
  rewrite (session_known clock req w s k Hs Hk).
  rewrite (user_profile_known clock req w s k Hs Hk).
  rewrite Hu. repeat split.
Qed.

(** After a login whose token line 121 reads back unchanged, the session
    check returns the user record of the login reply. *)
Lemma session_after_login clock (req auth : request) (w : world) fields k :
  body_dict req = Some fields ->
  to_key (expected_user_id fields) = Some k ->
  bearer_token auth = token_text (expected_user_id fields) (clock (reads w)) ->
  let r := handle clock (Login req) w in
  let r' := handle clock (Session auth) r.2 in
  exists u,
    reply_data "session_token" r.1 =
      Some (JStr (token_text (expected_user_id fields) (clock (reads w)))) /\
    reply_data "user" r.1 = Some (user_json u) /\
    reply_status r'.1 = 200 /\ reply_field "success" r'.1 = Some (JBool true) /\
    reply_data "user" r'.1 = Some (user_json u).
Proof.
  intros Hbody Hkey Htok. cbn zeta.
  destruct (login_returns clock req w fields k Hbody Hkey)
    as (u & ts & w' & Hrun & Hu & Hs & _ & _).
  replace (handle clock (Login req) w) with
    (Reply 200
       (envelope true ts "Login successful"
          [("data",
            JObj [("session_token",
                   JStr (token_text (expected_user_id fields) (clock (reads w))));
                  ("user", user_json u)])]), w')
    by (unfold handle, serve, view; rewrite Hrun; reflexivity).
  cbn [fst snd].
  exists u. split; [reflexivity |]. split; [reflexivity |].
  destruct (issued_token_accepted clock auth w'
              {| s_user_id := expected_user_id fields;
                 s_device_id := expected_device_id fields;
                 s_created_at := isoformat (wall (clock (S (reads w)))) |} k u)
    as (H200 & Hok & Huser & _).
  - rewrite Htok, Hs. apply lookup_insert_eq.
  - exact Hkey.
  - rewrite Hu. apply lookup_insert_eq.
  - auto.
Qed.

(** C5 on the failing input: [p1] has logged in, and [sessions] holds
    the one token issued.  A client presents a token that was never
    issued, the issued one with [Bearer ] put in the middle: lines 121
    and 164 remove it, find the issued token, and both protected routes
    answer 200 with the record of [p1]. *)
Theorem never_issued_token_accepted :
  let login_reply := handle sample_clock (Login login_p1) boot in
  let w := login_reply.2 in
  let forged := "sessBearer ion_p1_1715938200.111111" in
  let r1 := (handle sample_clock
               (Session (with_auth "GET" "/api/session" ("Bearer " +:+ forged))) w).1 in
  let r2 := (handle sample_clock
               (UserProfile (with_auth "GET" "/api/user/profile" forged)) w).1 in
  map fst (map_to_list (sessions w)) = ["session_p1_1715938200.111111"] /\
  sessions w !! forged = None /\
  reply_status r1 = 200 /\
  reply_field "success" r1 = Some (JBool true) /\
  is_Some (reply_data "user" r1) /\
  reply_data "user" r1 = reply_data "user" login_reply.1 /\
  reply_status r2 = 200 /\
  reply_field "success" r2 = Some (JBool true) /\
  reply_field "data" r2 = reply_data "user" login_reply.1.
Proof. vm_compute. repeat split. eexists. reflexivity. Qed.

(** C1 on the failing input: a client logs in as [Bearer x] and presents
    the token of the reply behind [Bearer ]; line 121 also removes the
    [Bearer ] inside the token, and the session check answers 401. *)
Theorem session_rejects_login_token :
  let r := handle sample_clock (Login login_bearer_x) boot in
  let tok := "session_Bearer x_1715938200.111111" in
  let r' := handle sample_clock
              (Session (with_auth "GET" "/api/session" ("Bearer " +:+ tok))) r.2 in
  reply_status r.1 = 200 /\
  reply_data "session_token" r.1 = Some (JStr tok) /\
  is_Some (sessions r.2 !! tok) /\
  reply_status r'.1 = 401 /\
  reply_field "success" r'.1 = Some (JBool false) /\
  reply_data "user" r'.1 = None.
Proof. vm_compute. repeat split. eexists. reflexivity. Qed.

(** C7 on two failing inputs: the handlers' token against the
    specification's reading of the header.  An inner [Bearer ] is removed
    as well, with or without a leading one. *)
Theorem bearer_token_removes_every_occurrence :
  let h1 := "Bearer session_Bearer x_1715938200.111111" in
  let h2 := "Token Bearer abc" in
  bearer_token (with_auth "GET" "/api/session" h1) = "session_x_1715938200.111111" /\
  strip_bearer_prefix h1 = "session_Bearer x_1715938200.111111" /\
  bearer_token (with_auth "GET" "/api/user/profile" h2) = "Token abc" /\
  strip_bearer_prefix h2 = "Token Bearer abc".
Proof. vm_compute. repeat split. Qed.

(** C10 on the failing input: the token issued to the user [Bearer x],
    sent as the whole header, is turned down by both protected routes. *)
Theorem raw_token_rejected :
  let r := handle sample_clock (Login login_bearer_x) boot in
  let tok := "session_Bearer x_1715938200.111111" in
  let r1 := handle sample_clock (Session (with_auth "GET" "/api/session" tok)) r.2 in
  let r2 := handle sample_clock (UserProfile (with_auth "GET" "/api/user/profile" tok)) r.2 in
  is_Some (sessions r.2 !! tok) /\
  reply_status r1.1 = 401 /\ reply_field "success" r1.1 = Some (JBool false) /\
  reply_status r2.1 = 401 /\ reply_field "success" r2.1 = Some (JBool false) /\
  reply_field "message" r2.1 = Some (JStr "Unauthorized").
Proof. vm_compute. repeat split. eexists. reflexivity. Qed.

(** Where the issued token has no [Bearer ] inside, the raw token and the
    token behind [Bearer ] are both read back as issued. *)
Lemma bearer_token_reads_back (m p tok : string) :
  contains "Bearer " tok = false ->
  bearer_token (with_auth m p tok) = tok /\
  bearer_token (with_auth m p ("Bearer " +:+ tok)) = tok.
Proof.
  intros H. rewrite !bearer_token_with_auth, replace_bearer_prefix.
  split; apply str_replace_absent, H.
Qed.

End Protected.

(** ** The login routes *)

Module LoginRoute.
Import Py Clock Flask Servers Props Samples PyFacts ClockFacts HandlerFacts.

Lemma handle_login_returns clock (req : request) (w : world) body w' :
  login clock req w = (Returns (body, 200), w') ->
  handle clock (Login req) w = (Reply 200 body, w').
Proof. intros H. unfold handle, serve, view. rewrite H. reflexivity. Qed.

(** Two values with one key are the same value, unless they are numbers. *)
Lemma to_key_same (a b : json) k :
  to_key a = Some k -> to_key b = Some k -> is_number b = false -> a = b.
Proof.
  destruct a as [| [] | n | s | l | l], b as [| [] | m | t | l' | l'];
    cbn; intros Ha Hb Hn; congruence.
Qed.

(** C3, as the code has it: for a body that yields a dictionary whose
    user id (the [user_id] field, else the [device_id] field, else
    [unknown]) can be hashed, in a state reached from the empty stores,
    the login is answered with a user record whose [user_id] has the key
    of that user id; it is that very value unless it is a number, where
    [True] and [1], [False] and [0] are one key. *)
Theorem login_user_id clock (req : request) (w : world) fields k :
  reachable clock w ->
  body_dict req = Some fields ->
  to_key (expected_user_id fields) = Some k ->
  exists u,
    reply_status (handle clock (Login req) w).1 = 200 /\
    reply_data "user" (handle clock (Login req) w).1 = Some (user_json u) /\
    to_key (u_user_id u) = to_key (expected_user_id fields) /\
    (is_number (expected_user_id fields) = false ->
     u_user_id u = expected_user_id fields).
Proof.
  intros Hw Hbody Hkey.
  destruct (login_returns clock req w fields k Hbody Hkey)
    as (u & ts & w' & Hrun & _ & _ & Hcase & _).
  rewrite (handle_login_returns _ _ _ _ _ Hrun). cbn [fst].
  exists u. split; [reflexivity |]. split; [reflexivity |].
  assert (Hu : to_key (u_user_id u) = Some k).
  { destruct Hcase as [Hold | [_ ->]]; [| exact Hkey].
    apply (reachable_well_keyed clock w Hw), Hold. }
  split; [congruence |].
  intros Hn. eapply to_key_same; eassumption.
Qed.

Lemma login_user_id_witness :
  reachable sample_clock boot /\
  body_dict login_p1 = Some [("user_id", JStr "p1")] /\
  to_key (expected_user_id [("user_id", JStr "p1")]) = Some (KStr "p1") /\
  exists u,
    reply_data "user" (handle sample_clock (Login login_p1) boot).1 =
      Some (user_json u) /\
    u_user_id u = JStr "p1".
Proof.
  assert (Hboot : reachable sample_clock boot) by (exists []; reflexivity).
  split; [exact Hboot |]. split; [reflexivity |]. split; [reflexivity |].
  destruct (login_user_id sample_clock login_p1 boot
              [("user_id", JStr "p1")] (KStr "p1") Hboot eq_refl eq_refl)
    as (u & _ & Huser & _ & Hsame).
  exists u. split; [exact Huser | apply Hsame; reflexivity].
Defined.

(** C3 fails on a JSON body whose [user_id] is a list: line 96 raises,
    the client receives a 500 and no user record. *)
Lemma login_list_id_has_no_user :
  json_body login_list_id = Some (JObj [("user_id", JArr [JStr "p1"])]) /\
  (handle sample_clock (Login login_list_id) boot).1 = Abort 500 /\
  reply_data "user" (handle sample_clock (Login login_list_id) boot).1 = None.
Proof. vm_compute. repeat split. Qed.

Lemma token_text_differs (uid : json) (t1 t2 : instant) :
  token_text uid t1 <> token_text uid t2 <-> posix t1 <> posix t2.
Proof.
  unfold token_text. split; intros H E; apply H.
  - rewrite E. reflexivity.
  - do 3 apply append_inj_l in E. exact E.
Qed.

(** C4, as the code has it: two logins in a row with one hashable user
    id are both answered, with the same user record, which is the one
    filed in [users]; the second token is read from the clock later than
    the first, and the two tokens differ exactly when the two readings
    print differently. *)
Theorem login_twice clock (req1 req2 : request) (w : world) fields1 fields2 k :
  body_dict req1 = Some fields1 ->
  body_dict req2 = Some fields2 ->
  expected_user_id fields2 = expected_user_id fields1 ->
  to_key (expected_user_id fields1) = Some k ->
  let r1 := handle clock (Login req1) w in
  let r2 := handle clock (Login req2) r1.2 in
  exists tok1 tok2 u,
    reply_data "session_token" r1.1 = Some (JStr tok1) /\
    reply_data "user" r1.1 = Some (user_json u) /\
    reply_data "session_token" r2.1 = Some (JStr tok2) /\
    reply_data "user" r2.1 = Some (user_json u) /\
    users r2.2 !! k = Some u /\
    reads w < reads r1.2 /\
    (tok1 <> tok2 <-> posix (clock (reads w)) <> posix (clock (reads r1.2))).
Proof.
  intros Hb1 Hb2 Hsame Hkey. cbn zeta.
  destruct (login_returns clock req1 w fields1 k Hb1 Hkey)
    as (u & ts1 & w1 & Hrun1 & Hu1 & _ & _ & Hreads).
  rewrite (handle_login_returns _ _ _ _ _ Hrun1). cbn [fst snd].
  assert (Hkey2 : to_key (expected_user_id fields2) = Some k) by congruence.
  destruct (login_returns clock req2 w1 fields2 k Hb2 Hkey2)
    as (u2 & ts2 & w2 & Hrun2 & Hu2 & _ & Hcase & _).
  rewrite (handle_login_returns _ _ _ _ _ Hrun2). cbn [fst snd].
  assert (Hlook : users w1 !! k = Some u) by (rewrite Hu1; apply lookup_insert_eq).
  assert (u2 = u) as -> by (destruct Hcase as [Hold | [Hnone _]]; congruence).
  eexists. eexists. exists u.
  split; [reflexivity |]. split; [reflexivity |].
  split; [reflexivity |]. split; [reflexivity |].
  split; [rewrite Hu2; apply lookup_insert_eq |].
  split; [exact Hreads |].
  rewrite Hsame. apply token_text_differs.
Qed.

Lemma login_twice_witness :
  let r1 := handle sample_clock (Login login_p1) boot in
  let r2 := handle sample_clock (Login login_p1) r1.2 in
  body_dict login_p1 = Some [("user_id", JStr "p1")] /\
  to_key (expected_user_id [("user_id", JStr "p1")]) = Some (KStr "p1") /\
  exists tok1 tok2 u,
    reply_data "session_token" r1.1 = Some (JStr tok1) /\
    reply_data "session_token" r2.1 = Some (JStr tok2) /\
    reply_data "user" r2.1 = Some (user_json u) /\
    tok1 <> tok2.
Proof.
  cbn zeta. split; [reflexivity |]. split; [reflexivity |].
  destruct (login_twice sample_clock login_p1 login_p1 boot
              [("user_id", JStr "p1")] [("user_id", JStr "p1")] (KStr "p1")
              eq_refl eq_refl eq_refl eq_refl)
    as (tok1 & tok2 & u & H1 & _ & H2 & Hu & _ & _ & Hdiff).
  exists tok1, tok2, u. split; [exact H1 |]. split; [exact H2 |].
  split; [exact Hu |]. apply Hdiff. vm_compute. discriminate.
Defined.

(** C4 fails when the clock does not move between the two logins: both
    replies carry the same token. *)
Lemma login_twice_same_token :
  let r1 := handle frozen_clock (Login login_p1) boot in
  let r2 := handle frozen_clock (Login login_p1) r1.2 in
  reply_data "session_token" r1.1 = Some (JStr "session_p1_1715938200.111111") /\
  reply_data "session_token" r2.1 = Some (JStr "session_p1_1715938200.111111").
Proof. vm_compute. split; reflexivity. Qed.

(** A body announced as JSON that is not a JSON object is not absorbed:
    the client receives a 400 when it does not parse, a 500 when it parses
    to something else than an object. *)
Lemma login_rejects_bad_body clock (req : request) (w : world) :
  body_dict req = None ->
  (json_body req = None /\ (handle clock (Login req) w).1 = Abort 400) \/
  (json_body req <> None /\ (handle clock (Login req) w).1 = Abort 500).
Proof.
  intros Hbody.
  destruct (login_bad_body clock req w Hbody)
    as (e & w' & Hrun & [[Hnone ->] | [Hsome ->]] & _);
    unfold handle, serve, view; rewrite Hrun; [left | right]; auto.
Qed.

(** C6, as the code has it: in a state reached from the empty stores, a
    body that is not announced as JSON, be it absent, malformed or
    anything else, is not looked at, and the login is answered 200 with
    [success] true for the user [unknown]; the login is answered 200 with
    [success] true for every body that yields a dictionary with a
    hashable user id. *)
Theorem login_absorbs_unannounced_body clock (req : request) (w : world) :
  reachable clock w ->
  (is_json req = false ->
   exists u,
     reply_status (handle clock (Login req) w).1 = 200 /\
     reply_field "success" (handle clock (Login req) w).1 = Some (JBool true) /\
     reply_data "user" (handle clock (Login req) w).1 = Some (user_json u) /\
     u_user_id u = JStr "unknown") /\
  (forall fields,
     body_dict req = Some fields ->
     is_Some (to_key (expected_user_id fields)) ->
     reply_status (handle clock (Login req) w).1 = 200 /\
     reply_field "success" (handle clock (Login req) w).1 = Some (JBool true)).
Proof.
  intros Hw. split.
  - intros Hjson.
    assert (Hbody : body_dict req = Some [])
      by (unfold body_dict; rewrite Hjson; reflexivity).
    destruct (login_returns clock req w [] (KStr "unknown") Hbody eq_refl)
      as (u & ts & w' & Hrun & _ & _ & Hcase & _).
    rewrite (handle_login_returns _ _ _ _ _ Hrun). cbn [fst].
    exists u. split; [reflexivity |]. split; [reflexivity |]. split; [reflexivity |].
    destruct Hcase as [Hold | [_ ->]]; [| reflexivity].
    pose proof (reachable_well_keyed clock w Hw _ _ Hold) as Hkey.
    destruct (u_user_id u) as [| [] | n | s | l | l]; cbn in Hkey; congruence.
  - intros fields Hbody [k Hkey].
    destruct (login_returns clock req w fields k Hbody Hkey)
      as (u & ts & w' & Hrun & _).
    rewrite (handle_login_returns _ _ _ _ _ Hrun). split; reflexivity.
Qed.

Lemma login_absorbs_unannounced_body_witness :
  reachable sample_clock (run sample_clock [Login login_p1] boot) /\
  is_json login_plain_text = false /\
  exists u,
    reply_status
      (handle sample_clock (Login login_plain_text)
         (run sample_clock [Login login_p1] boot)).1 = 200 /\
    u_user_id u = JStr "unknown".
Proof.
  assert (Hw : reachable sample_clock (run sample_clock [Login login_p1] boot))
    by (exists [Login login_p1]; reflexivity).
  split; [exact Hw |]. split; [reflexivity |].
  destruct (login_absorbs_unannounced_body sample_clock login_plain_text _ Hw)
    as [Hplain _].
  destruct (Hplain eq_refl) as (u & H200 & _ & _ & Hid).
  exists u. split; [exact H200 | exact Hid].
Defined.

(** C6 fails on a request announced as JSON whose body is cut short.  The
    logger absorbs it (lines 31-35); [login] calls [get_json] as soon as
    the content type says JSON (line 81) and the client receives a 400. *)
Lemma login_malformed_body_is_400 :
  is_json login_truncated = true /\
  json_body login_truncated = None /\
  returned (log_request login_truncated boot).1 = Some tt /\
  (handle sample_clock (Login login_truncated) boot).1 = Abort 400 /\
  reply_data "user" (handle sample_clock (Login login_truncated) boot).1 = None.
Proof. vm_compute. repeat split. Qed.

End LoginRoute.

(** ** The two dictionaries over a run *)

Module Stores.
Import Py Clock Flask Servers Props Samples PyFacts ClockFacts HandlerFacts.

(** C8, as the code has it: starting from the empty dictionaries, after
    any sequence of requests in which no login carried a user id that
    cannot be hashed (a JSON array or object), every session record's
    [user_id] is a key of [users]. *)
Theorem sessions_refer_to_users clock (cs : list call) :
  Forall hashable_login cs -> sessions_have_users (run clock cs boot).
Proof.
  intros Hcs. apply run_sessions_have_users; [exact Hcs |].
  apply boot_sessions_have_users.
Qed.

Lemma sessions_refer_to_users_witness :
  let cs := [Login login_p1;
             Session (with_auth "GET" "/api/session"
                        "Bearer session_p1_1715938200.111111");
             Login login_truncated] in
  Forall hashable_login cs /\
  sessions_have_users (run sample_clock cs boot) /\
  is_Some (sessions (run sample_clock cs boot) !! "session_p1_1715938200.111111").
Proof.
  cbn zeta.
  assert (Hcs : Forall hashable_login
            [Login login_p1;
             Session (with_auth "GET" "/api/session"
                        "Bearer session_p1_1715938200.111111");
             Login login_truncated]).
  { repeat constructor.
    - intros fields [= <-]. eexists. reflexivity.
    - intros fields [=]. }
  split; [exact Hcs |].
  split; [exact (sessions_refer_to_users sample_clock _ Hcs) |].
  vm_compute. eexists. reflexivity.
Defined.

(** C8 fails after a login whose [user_id] is a list: the session is
    stored (lines 89-93) before line 96 raises, and stays; the health check
    that follows returns, and leaves a session without user. *)
Lemma list_id_leaves_session_without_user :
  let cs := [Login login_list_id; Health (bare "GET" "/api/health" [])] in
  map answered (replies sample_clock cs boot) = [false; true] /\
  ~ sessions_have_users (run sample_clock cs boot).
Proof.
  cbn zeta. split; [vm_compute; reflexivity |].
  intros Hinv.
  destruct (Hinv "session_['p1']_1715938200.111111"
              {| s_user_id := JArr [JStr "p1"]; s_device_id := JStr "unknown";
                 s_created_at := "2024-05-17T09:30:00.111121" |})
    as (k & Hk & _); [vm_compute; reflexivity | discriminate].
Qed.

End Stores.

(** ** The scenarios of the specification, run on the embedding *)

Module Scenarios.
Import Py Clock Flask Servers Props Samples.

(** [POST /login] with [{"user_id": "p1"}]: a new user with 1000 coins at
    level 1, and a token that starts with [session_p1_]. *)
Example first_login_of_p1 :
  let r := (handle sample_clock (Login login_p1) boot).1 in
  exists user tok,
    reply_data "user" r = Some user /\
    json_field "coins" user = Some (JInt 1000) /\
    json_field "level" user = Some (JInt 1) /\
    json_field "yokai" user = Some (JArr []) /\
    reply_data "session_token" r = Some (JStr tok) /\
    starts_with "session_p1_" tok = true.
Proof. vm_compute. eexists. eexists. repeat split. Qed.

(** [GET /api/user/profile] with the token of that login behind
    [Bearer ]: the profile of [p1]. *)
Example profile_of_p1 :
  let w := (handle sample_clock (Login login_p1) boot).2 in
  let r := (handle sample_clock
              (UserProfile (with_auth "GET" "/api/user/profile"
                              "Bearer session_p1_1715938200.111111")) w).1 in
  reply_status r = 200 /\ reply_data "user_id" r = Some (JStr "p1").
Proof. vm_compute. split; reflexivity. Qed.

(** [GET /foo/bar/baz] *)
Example unknown_endpoint :
  let r := (handle sample_clock (CatchAll "foo/bar/baz" (bare "GET" "/foo/bar/baz" [])) boot).1 in
  reply_field "success" r = Some (JBool true) /\
  reply_field "message" r = Some (JStr "Endpoint /foo/bar/baz - under development").
Proof. vm_compute. split; reflexivity. Qed.

(** A second user id that Python finds equal to a first one is answered
    with the first one's record: [true] after [1]. *)
Example true_after_one :
  let one := post_json "/login" ("{" +:+ quoted "user_id" +:+ ": 1}")
               (Some (JObj [("user_id", JInt 1)])) in
  let yes := post_json "/login" ("{" +:+ quoted "user_id" +:+ ": true}")
               (Some (JObj [("user_id", JBool true)])) in
  let w := (handle sample_clock (Login one) boot).2 in
  let r := (handle sample_clock (Login yes) w).1 in
  exists user,
    reply_data "user" r = Some user /\ json_field "user_id" user = Some (JInt 1).
Proof. vm_compute. eexists. split; reflexivity. Qed.

End Scenarios.

(** ** The log *)

Module LogFacts.
Import Py Clock Flask Servers Props Samples Journal MoreSamples.
Import PyFacts ClockFacts HandlerFacts.

(** *** Computations that write nothing *)

Lemma silent_ret {A : Type} (a : A) : silent (ret a).
Proof. intros w. reflexivity. Qed.

Lemma silent_raise {A : Type} (e : py_exn) : silent (@raise A e).
Proof. intros w. reflexivity. Qed.

Lemma silent_now (clock : nat -> instant) : silent (now clock).
Proof. intros w. reflexivity. Qed.

Lemma silent_bind {A B : Type} (c : M A) (k : A -> M B) :
  silent c -> (forall a, silent (k a)) -> silent (bind c k).
Proof.
  intros Hc Hk w. unfold bind.
  specialize (Hc w). destruct (c w) as [[a | e] w1]; cbn in Hc |- *.
  - rewrite (Hk a w1). exact Hc.
  - exact Hc.
Qed.

Lemma silent_if {A : Type} (b : bool) (c d : M A) :
  silent c -> silent d -> silent (if b then c else d).
Proof. destruct b; auto. Qed.

Lemma silent_hash (v : json) : silent (hash v).
Proof. unfold hash. destruct (to_key v); [apply silent_ret | apply silent_raise]. Qed.

Lemma silent_get_json (req : request) : silent (get_json req).
Proof.
  unfold get_json. destruct (is_json req); [| apply silent_raise].
  destruct (json_body req); [apply silent_ret | apply silent_raise].
Qed.

Lemma silent_data_get (d : json) (key : string) (default : json) :
  silent (data_get d key default).
Proof.
  unfold data_get. destruct d; try apply silent_raise.
  destruct (dict_get key fields); apply silent_ret.
Qed.

Lemma silent_sessions_setitem tok s : silent (sessions_setitem tok s).
Proof. intros w. reflexivity. Qed.

Lemma silent_sessions_contains tok : silent (sessions_contains tok).
Proof. intros w. reflexivity. Qed.

Lemma silent_sessions_getitem tok : silent (sessions_getitem tok).
Proof. intros w. unfold sessions_getitem. destruct (sessions w !! tok); reflexivity. Qed.

Lemma silent_users_contains v : silent (users_contains v).
Proof.
  unfold users_contains. apply silent_bind; [apply silent_hash |].
  intros k w. reflexivity.
Qed.

Lemma silent_users_setitem v u : silent (users_setitem v u).
Proof.
  unfold users_setitem. apply silent_bind; [apply silent_hash |].
  intros k w. reflexivity.
Qed.

Lemma silent_users_getitem v : silent (users_getitem v).
Proof.
  unfold users_getitem. apply silent_bind; [apply silent_hash |].
  intros k w. destruct (users w !! k); reflexivity.
Qed.

Lemma silent_users_get v : silent (users_get v).
Proof.
  unfold users_get. apply silent_bind; [apply silent_hash |].
  intros k w. destruct (users w !! k); reflexivity.
Qed.

Create HintDb journal discriminated.
#[export] Hint Resolve silent_ret silent_raise silent_now silent_hash
  silent_get_json silent_data_get silent_sessions_setitem
  silent_sessions_contains silent_sessions_getitem silent_users_contains
  silent_users_setitem silent_users_getitem silent_users_get : journal.

Ltac hush :=
  repeat first
    [ solve [auto with journal]
    | apply silent_bind; [| intros ?]
    | apply silent_if ].

Lemma silent_create_response clock success data message :
  silent (create_response clock success data message).
Proof. unfold create_response. hush. Qed.

#[export] Hint Resolve silent_create_response : journal.

(** The run of the logger, branch by branch. *)
Lemma log_request_appends (req : request) (w : world) :
  exists w1,
    log_request req w = (Returns tt, w1) /\
    users w1 = users w /\ sessions w1 = sessions w /\ reads w1 = reads w /\
    log w1 = (log w ++ request_lines req)%list.
Proof.
  unfold log_request, request_lines, body_lines, bind, emit, try_except,
    get_json, ret, raise.
  destruct (String.eqb (Flask.data req) EmptyString); cbn.
  - eexists. split; [reflexivity |]. cbn. repeat split.
    rewrite <- !app_assoc. reflexivity.
  - destruct (is_json req); [destruct (json_body req) |]; cbn;
      (eexists; split; [reflexivity |]; cbn; repeat split;
       rewrite <- !app_assoc; reflexivity).
Qed.

(** X1.  The logger always completes: a body that is not announced as
    JSON, or does not parse, is written raw.  It touches neither the
    dictionaries nor the clock, and appends the lines of the request. *)
Theorem log_request_completes (req : request) (w : world) :
  exists w1,
    log_request req w = (Returns tt, w1) /\
    users w1 = users w /\ sessions w1 = sessions w /\ reads w1 = reads w /\
    log w1 = (log w ++ request_lines req)%list.
Proof. exact (log_request_appends req w). Qed.

Lemma logged_then {A : Type} (req : request) (rest : M A) (l : list log_line) :
  (forall w, log (rest w).2 = (log w ++ l)%list) ->
  forall w, log ((log_request req ;; rest) w).2 =
            (log w ++ request_lines req ++ l)%list.
Proof.
  intros Hrest w.
  destruct (log_request_appends req w) as (w1 & Hrun & _ & _ & _ & Hlog).
  unfold bind. rewrite Hrun, Hrest, Hlog, <- app_assoc. reflexivity.
Qed.

Lemma silent_appends_nothing {A : Type} (c : M A) :
  silent c -> forall w, log (c w).2 = (log w ++ [])%list.
Proof. intros H w. rewrite app_nil_r. apply H. Qed.

(** X2.  Every call, whatever its outcome, leaves in the log the lines of
    its request, followed for the catch-all by the warning naming the
    path, and nothing else; what was in the log stays. *)
Theorem every_call_is_logged clock (c : call) (w : world) :
  log (handle clock c w).2 =
  (log w ++ request_lines (call_request c) ++ call_warning c)%list.
Proof.
  unfold handle. rewrite serve_state.
  destruct c as [req | req | req | req | req | req | p req];
    cbn [view call_request call_warning].
  - unfold home, ok. apply logged_then, silent_appends_nothing. hush.
  - unfold health, ok. apply logged_then, silent_appends_nothing. hush.
  - unfold login, ok. apply logged_then, silent_appends_nothing. hush.
  - unfold session, ok, with_status. apply logged_then, silent_appends_nothing. hush.
  - unfold game_start, ok. apply logged_then, silent_appends_nothing. hush.
  - unfold user_profile, ok, with_status.
    apply logged_then, silent_appends_nothing. hush.
  - unfold catch_all, ok. apply logged_then. intros w1.
    unfold bind at 1, emit at 1.
    assert (Hs : silent (do b <- create_response clock true (JObj [])
                              ("Endpoint /" +:+ p +:+ " - under development");
                         ret (b, 200))) by hush.
    rewrite Hs. reflexivity.
Qed.

End LogFacts.

(** ** What the handlers do to the two dictionaries *)

Module StoreFacts.
Import Py Clock Flask Servers Props Samples Journal MoreSamples.
Import PyFacts ClockFacts HandlerFacts.

(** The state a login leaves, outcome by outcome. *)
Lemma login_state clock (req : request) (w : world) :
  let w' := (handle clock (Login req) w).2 in
  (body_dict req = None /\ users w' = users w /\ sessions w' = sessions w) \/
  exists fields,
    body_dict req = Some fields /\
    sessions w' =
      <[token_text (expected_user_id fields) (clock (reads w)) :=
          {| s_user_id := expected_user_id fields;
             s_device_id := expected_device_id fields;
             s_created_at := isoformat (wall (clock (S (reads w)))) |}]>
        (sessions w) /\
    (to_key (expected_user_id fields) = None /\ users w' = users w \/
     exists k,
       to_key (expected_user_id fields) = Some k /\
       (is_Some (users w !! k) /\ users w' = users w \/
        users w !! k = None /\
        users w' =
          <[k := new_user (expected_user_id fields) (expected_device_id fields)
                   (clock (S (S (reads w))))]> (users w))).
Proof.
  cbn zeta. unfold handle. rewrite serve_state. cbn [view].
  destruct (body_dict req) as [fields |] eqn:Hbody.
  - right. exists fields. split; [reflexivity |].
    destruct (to_key (expected_user_id fields)) as [k |] eqn:Hkey.
    + destruct (login_returns clock req w fields k Hbody Hkey)
        as (u & ts & w' & Hrun & Hu & Hs & Hcase & _).
      rewrite Hrun. cbn [snd]. split; [exact Hs |].
      right. exists k. split; [reflexivity |].
      destruct Hcase as [Hold | [Hnone ->]].
      * left. split; [eauto |]. rewrite Hu. apply insert_id, Hold.
      * right. split; [exact Hnone | exact Hu].
    + destruct (login_unhashable clock req w fields Hbody Hkey)
        as (w' & Hrun & Hu & Hs).
      rewrite Hrun. cbn [snd]. split; [exact Hs |]. left. auto.
  - left. destruct (login_bad_body clock req w Hbody)
      as (e & w' & Hrun & _ & Hu & Hs).
    rewrite Hrun. cbn [snd]. auto.
Qed.

Lemma other_calls_keep clock (c : call) (w : world) :
  (forall req, c <> Login req) ->
  users (handle clock c w).2 = users w /\
  sessions (handle clock c w).2 = sessions w.
Proof.
  intros Hc. unfold handle. rewrite serve_state. apply view_keeps, Hc.
Qed.

(** X3.  Only [login] writes: any other call, whatever its outcome,
    leaves [users] and [sessions] exactly as they were. *)
Theorem only_login_writes clock (c : call) (w : world) :
  (forall req, c <> Login req) ->
  users (handle clock c w).2 = users w /\
  sessions (handle clock c w).2 = sessions w.
Proof. apply other_calls_keep. Qed.

Lemma only_login_writes_witness :
  let w := run sample_clock [Login login_p1] boot in
  let c := UserProfile (with_auth "GET" "/api/user/profile"
                          "Bearer session_p1_1715938200.111111") in
  (forall req, c <> Login req) /\
  users (handle sample_clock c w).2 = users w /\
  sessions (handle sample_clock c w).2 = sessions w.
Proof.
  cbn zeta. split; [discriminate |].
  apply (only_login_writes sample_clock
           (UserProfile (with_auth "GET" "/api/user/profile"
                           "Bearer session_p1_1715938200.111111"))).
  discriminate.
Defined.

Lemma handle_users_persist clock (c : call) (w : world) k u :
  users w !! k = Some u -> users (handle clock c w).2 !! k = Some u.
Proof.
  intros Hlook.
  destruct c as [req | req | req | req | req | req | p req];
    try (match goal with
         | |- context [handle clock ?c w] =>
             destruct (other_calls_keep clock c w) as [-> _];
             [discriminate | exact Hlook]
         end).
  pose proof (login_state clock req w) as Hst. cbn zeta in Hst.
  destruct Hst
    as [(_ & -> & _) | (fields & _ & _ & [[_ ->] | (k0 & _ & [[_ ->] | [Hnone ->]])])];
    try exact Hlook.
  rewrite lookup_insert_ne; [exact Hlook | congruence].
Qed.

Lemma handle_sessions_persist clock (c : call) (w : world) tok :
  is_Some (sessions w !! tok) -> is_Some (sessions (handle clock c w).2 !! tok).
Proof.
  intros Hlook.
  destruct c as [req | req | req | req | req | req | p req];
    try (match goal with
         | |- context [handle clock ?c w] =>
             destruct (other_calls_keep clock c w) as [_ ->];
             [discriminate | exact Hlook]
         end).
  pose proof (login_state clock req w) as Hst. cbn zeta in Hst.
  destruct Hst as [(_ & _ & ->) | (fields & _ & -> & _)]; [exact Hlook |].
  apply lookup_insert_is_Some.
  destruct (decide (token_text (expected_user_id fields) (clock (reads w)) = tok));
    auto.
Qed.

Lemma run_users_persist clock (cs : list call) (w : world) k u :
  users w !! k = Some u -> users (run clock cs w) !! k = Some u.
Proof.
  revert w. induction cs as [| c cs IH]; intros w Hlook; [exact Hlook |].
  cbn [run]. apply IH, handle_users_persist, Hlook.
Qed.

(** X4.  A user record, once filed, is never removed and never changed,
    whatever requests follow. *)
Theorem users_are_permanent clock (cs : list call) (w : world) k u :
  users w !! k = Some u -> users (run clock cs w) !! k = Some u.
Proof. apply run_users_persist. Qed.

Lemma users_are_permanent_witness :
  let w := run sample_clock [Login login_p1] boot in
  let u := new_user (JStr "p1") (JStr "unknown") (sample_clock 2) in
  users w !! KStr "p1" = Some u /\
  users (run sample_clock [Login login_p1_tablet; Login login_list_id] w)
    !! KStr "p1" = Some u.
Proof.
  cbn zeta.
  assert (H : users (run sample_clock [Login login_p1] boot) !! KStr "p1" =
              Some (new_user (JStr "p1") (JStr "unknown") (sample_clock 2)))
    by (vm_compute; reflexivity).
  split; [exact H |].
  exact (users_are_permanent sample_clock _ _ _ _ H).
Defined.

Lemma run_sessions_persist clock (cs : list call) (w : world) tok :
  is_Some (sessions w !! tok) -> is_Some (sessions (run clock cs w) !! tok).
Proof.
  revert w. induction cs as [| c cs IH]; intros w Hlook; [exact Hlook |].
  cbn [run]. apply IH, handle_sessions_persist, Hlook.
Qed.

(** X5.  A session token, once stored, stays a key of [sessions]: no
    request logs a session out. *)
Theorem sessions_never_expire clock (cs : list call) (w : world) tok :
  is_Some (sessions w !! tok) -> is_Some (sessions (run clock cs w) !! tok).
Proof. apply run_sessions_persist. Qed.

Lemma sessions_never_expire_witness :
  let w := run sample_clock [Login login_p1] boot in
  is_Some (sessions w !! "session_p1_1715938200.111111") /\
  is_Some (sessions (run sample_clock [Login login_p1; Login login_truncated] w)
             !! "session_p1_1715938200.111111").
Proof.
  cbn zeta.
  assert (H : is_Some (sessions (run sample_clock [Login login_p1] boot)
                         !! "session_p1_1715938200.111111"))
    by (vm_compute; eexists; reflexivity).
  split; [exact H |].
  exact (sessions_never_expire sample_clock _ _ _ H).
Defined.

(** What any call does to the dictionaries. *)
Lemma handle_state clock (c : call) (w : world) :
  (users (handle clock c w).2 = users w /\
   sessions (handle clock c w).2 = sessions w) \/
  exists fields,
    sessions (handle clock c w).2 =
      <[token_text (expected_user_id fields) (clock (reads w)) :=
          {| s_user_id := expected_user_id fields;
             s_device_id := expected_device_id fields;
             s_created_at := isoformat (wall (clock (S (reads w)))) |}]>
        (sessions w) /\
    (users (handle clock c w).2 = users w \/
     exists k,
       users w !! k = None /\
       to_key (expected_user_id fields) = Some k /\
       users (handle clock c w).2 =
         <[k := new_user (expected_user_id fields) (expected_device_id fields)
                  (clock (S (S (reads w))))]> (users w)).
Proof.
  destruct c as [req | req | req | req | req | req | p req];
    try (left; apply other_calls_keep; discriminate).
  pose proof (login_state clock req w) as Hst. cbn zeta in Hst.
  destruct Hst as [(_ & Hu & Hs) | (fields & _ & Hs & Hcase)]; [left; auto |].
  right. exists fields. split; [exact Hs |].
  destruct Hcase as [[_ Hu] | (k & Hkey & [[_ Hu] | [Hnone Hu]])]; auto.
  right. exists k. auto.
Qed.

(** X6.  Every user the server files has the starting values: level 1,
    1000 coins, no yokai; no route ever changes them. *)
Theorem users_keep_defaults clock (w : world) k u :
  reachable clock w -> users w !! k = Some u -> has_defaults u.
Proof.
  intros [cs ->]. revert k u.
  assert (Hgen : forall w0,
            (forall k u, users w0 !! k = Some u -> has_defaults u) ->
            forall k u, users (run clock cs w0) !! k = Some u -> has_defaults u).
  { induction cs as [| c cs IH]; intros w0 Hinv; [exact Hinv |].
    cbn [run]. apply IH. intros k u.
    destruct (handle_state clock c w0)
      as [[-> _] | (fields & _ & [-> | (k0 & _ & _ & ->)])]; try apply Hinv.
    rewrite lookup_insert. case_decide; [| apply Hinv].
    intros [= <-]. repeat split. }
  apply Hgen. intros k u H. cbn in H. rewrite lookup_empty in H. discriminate.
Qed.

Lemma users_keep_defaults_witness :
  let w := run sample_clock [Login login_p1_tablet; Login login_p1] boot in
  reachable sample_clock w /\
  exists u, users w !! KStr "p1" = Some u /\
            u_device_id u = JStr "tablet" /\ has_defaults u.
Proof.
  cbn zeta.
  assert (Hw : reachable sample_clock
                 (run sample_clock [Login login_p1_tablet; Login login_p1] boot))
    by (eexists; reflexivity).
  split; [exact Hw |].
  exists (new_user (JStr "p1") (JStr "tablet") (sample_clock 2)).
  assert (H : users (run sample_clock [Login login_p1_tablet; Login login_p1] boot)
                !! KStr "p1" =
              Some (new_user (JStr "p1") (JStr "tablet") (sample_clock 2)))
    by (vm_compute; reflexivity).
  split; [exact H |]. split; [reflexivity |].
  exact (users_keep_defaults sample_clock _ _ _ Hw H).
Defined.

(** *** The clock readings *)

Lemma adv_ret {A : Type} (a : A) : advances (ret a).
Proof. intros w. cbn. lia. Qed.

Lemma adv_raise {A : Type} (e : py_exn) : advances (@raise A e).
Proof. intros w. cbn. lia. Qed.

Lemma adv_emit (l : log_line) : advances (emit l).
Proof. intros w. cbn. lia. Qed.

Lemma adv_now (clock : nat -> instant) : advances (now clock).
Proof. intros w. cbn. lia. Qed.

Lemma adv_bind {A B : Type} (c : M A) (k : A -> M B) :
  advances c -> (forall a, advances (k a)) -> advances (bind c k).
Proof.
  intros Hc Hk w. unfold bind.
  specialize (Hc w). destruct (c w) as [[a | e] w1]; cbn in Hc |- *.
  - specialize (Hk a w1). lia.
  - exact Hc.
Qed.

Lemma adv_try_except {A : Type} (c h : M A) :
  advances c -> advances h -> advances (try_except c h).
Proof.
  intros Hc Hh w. unfold try_except.
  specialize (Hc w). destruct (c w) as [[a | e] w1]; cbn in Hc |- *.
  - exact Hc.
  - specialize (Hh w1). lia.
Qed.

Lemma adv_if {A : Type} (b : bool) (c d : M A) :
  advances c -> advances d -> advances (if b then c else d).
Proof. destruct b; auto. Qed.

Lemma adv_hash (v : json) : advances (hash v).
Proof. unfold hash. destruct (to_key v); [apply adv_ret | apply adv_raise]. Qed.

Lemma adv_get_json (req : request) : advances (get_json req).
Proof.
  unfold get_json. destruct (is_json req); [| apply adv_raise].
  destruct (json_body req); [apply adv_ret | apply adv_raise].
Qed.

Lemma adv_data_get (d : json) (key : string) (default : json) :
  advances (data_get d key default).
Proof.
  unfold data_get. destruct d; try apply adv_raise.
  destruct (dict_get key fields); apply adv_ret.
Qed.

Lemma adv_sessions_setitem tok s : advances (sessions_setitem tok s).
Proof. intros w. cbn. lia. Qed.

Lemma adv_sessions_contains tok : advances (sessions_contains tok).
Proof. intros w. cbn. lia. Qed.

Lemma adv_sessions_getitem tok : advances (sessions_getitem tok).
Proof. intros w. unfold sessions_getitem. destruct (sessions w !! tok); cbn; lia. Qed.

Lemma adv_users_contains v : advances (users_contains v).
Proof.
  unfold users_contains. apply adv_bind; [apply adv_hash |].
  intros k w. cbn. lia.
Qed.

Lemma adv_users_setitem v u : advances (users_setitem v u).
Proof.
  unfold users_setitem. apply adv_bind; [apply adv_hash |].
  intros k w. cbn. lia.
Qed.

Lemma adv_users_getitem v : advances (users_getitem v).
Proof.
  unfold users_getitem. apply adv_bind; [apply adv_hash |].
  intros k w. destruct (users w !! k); cbn; lia.
Qed.

Lemma adv_users_get v : advances (users_get v).
Proof.
  unfold users_get. apply adv_bind; [apply adv_hash |].
  intros k w. destruct (users w !! k); cbn; lia.
Qed.

Create HintDb readings discriminated.
#[export] Hint Resolve adv_ret adv_raise adv_emit adv_now adv_hash adv_get_json
  adv_data_get adv_sessions_setitem adv_sessions_contains adv_sessions_getitem
  adv_users_contains adv_users_setitem adv_users_getitem adv_users_get : readings.

Ltac onward :=
  repeat first
    [ solve [auto with readings]
    | apply adv_bind; [| intros ?]
    | apply adv_try_except
    | apply adv_if ].

Lemma adv_view clock (c : call) : advances (view clock c).
Proof.
  destruct c; cbn [view];
    unfold home, health, login, session, game_start, user_profile, catch_all,
      ok, with_status, create_response, log_request;
    onward.
Qed.

Lemma handle_reads clock (c : call) (w : world) :
  reads w <= reads (handle clock c w).2.
Proof. unfold handle. rewrite serve_state. apply adv_view. Qed.

(** With an unhashable user id, [login] has read the clock twice when
    line 96 raises. *)
Lemma login_unhashable_reads clock (req : request) (w : world) fields :
  body_dict req = Some fields ->
  to_key (expected_user_id fields) = None ->
  reads (login clock req w).2 = S (S (reads w)).
Proof.
  intros Hbody Hkey.
  destruct (login_reads_ids req fields Hbody) as (Hdata & Hdid & Huid).
  destruct (log_request_run req w) as (w1 & Hlog & Hu & Hs & Hr).
  unfold login. unfold bind at 1. rewrite Hlog.
  unfold bind at 1. rewrite Hdata. unfold ret at 1.
  unfold bind at 1. rewrite Hdid. unfold ret at 1.
  unfold bind at 1. rewrite Huid. unfold ret at 1.
  unfold bind, now, sessions_setitem, users_contains, hash.
  rewrite Hkey. unfold raise. cbn. rewrite Hr. reflexivity.
Qed.

(** What a call does to [sessions], with the clock readings it takes. *)
Lemma handle_sessions_clock clock (c : call) (w : world) :
  sessions (handle clock c w).2 = sessions w \/
  exists uid did,
    reads w < reads (handle clock c w).2 /\
    sessions (handle clock c w).2 =
      <[token_text uid (clock (reads w)) :=
          {| s_user_id := uid; s_device_id := did;
             s_created_at := isoformat (wall (clock (S (reads w)))) |}]>
        (sessions w).
Proof.
  destruct c as [req | req | req | req | req | req | p req];
    try (left; apply other_calls_keep; discriminate).
  pose proof (login_state clock req w) as Hst. cbn zeta in Hst.
  destruct Hst as [(_ & _ & Hs) | (fields & Hbody & Hs & _)]; [left; exact Hs |].
  right. exists (expected_user_id fields), (expected_device_id fields).
  split; [| exact Hs].
  unfold handle. rewrite serve_state. cbn [view].
  destruct (to_key (expected_user_id fields)) as [k |] eqn:Hkey.
  - destruct (login_returns clock req w fields k Hbody Hkey)
      as (u & ts & w' & Hrun & _ & _ & _ & Hreads).
    rewrite Hrun. exact Hreads.
  - rewrite (login_unhashable_reads clock req w fields Hbody Hkey). lia.
Qed.

(** X7.  Every stored token spells out the user id of its session and a
    clock reading the process has made: it is [session_], the text of the
    user id, [_] and the timestamp of that reading; the session's time of
    creation is the reading after it. *)
Theorem tokens_spell_user_ids clock (w : world) :
  reachable clock w -> tokens_from_clock clock w.
Proof.
  intros [cs ->].
  assert (Hgen : forall w0, tokens_from_clock clock w0 ->
                            tokens_from_clock clock (run clock cs w0)).
  { induction cs as [| c cs IH]; intros w0 Hinv; [exact Hinv |].
    cbn [run]. apply IH. intros tok s Hlook.
    pose proof (handle_reads clock c w0) as Hmono.
    destruct (handle_sessions_clock clock c w0)
      as [Hs | (uid & did & Hlt & Hs)]; rewrite Hs in Hlook.
    - destruct (Hinv tok s Hlook) as (n & Hn & Htok & Hat).
      exists n. split; [lia | auto].
    - rewrite lookup_insert in Hlook. case_decide as Htok.
      + injection Hlook as <-. subst tok.
        exists (reads w0). split; [exact Hlt |]. split; reflexivity.
      + destruct (Hinv tok s Hlook) as (n & Hn & Htok' & Hat).
        exists n. split; [lia | auto]. }
  apply Hgen. intros tok s H. cbn in H. rewrite lookup_empty in H. discriminate.
Qed.

Lemma tokens_spell_user_ids_witness :
  let w := run sample_clock [Login login_list_id; Login login_p1] boot in
  reachable sample_clock w /\
  tokens_from_clock sample_clock w /\
  is_Some (sessions w !! "session_['p1']_1715938200.111111") /\
  is_Some (sessions w !! "session_p1_1715938200.111131").
Proof.
  cbn zeta.
  assert (Hw : reachable sample_clock
                 (run sample_clock [Login login_list_id; Login login_p1] boot))
    by (eexists; reflexivity).
  split; [exact Hw |].
  split; [exact (tokens_spell_user_ids sample_clock _ Hw) |].
  split; vm_compute; eexists; reflexivity.
Defined.

End StoreFacts.

(** ** More about [login] *)

Module LoginFacts.
Import Py Clock Flask Servers Props Samples Journal MoreSamples.
Import PyFacts ClockFacts HandlerFacts LoginRoute.

(** X8.  The first login of a user id files a record made of that id, the
    device id of the request, the third clock reading of the call and the
    starting values, returns it, and leaves every other user alone. *)
Theorem login_files_new_user clock (req : request) (w : world) fields k :
  body_dict req = Some fields ->
  to_key (expected_user_id fields) = Some k ->
  users w !! k = None ->
  let r := handle clock (Login req) w in
  let u := new_user (expected_user_id fields) (expected_device_id fields)
             (clock (S (S (reads w)))) in
  reply_status r.1 = 200 /\
  reply_data "user" r.1 = Some (user_json u) /\
  users r.2 = <[k := u]> (users w).
Proof.
  intros Hbody Hkey Hnone. cbn zeta.
  destruct (login_returns clock req w fields k Hbody Hkey)
    as (u & ts & w' & Hrun & Hu & _ & Hcase & _).
  rewrite (handle_login_returns _ _ _ _ _ Hrun). cbn [fst snd].
  destruct Hcase as [Hold | [_ ->]]; [congruence |].
  split; [reflexivity |]. split; [reflexivity | exact Hu].
Qed.

Lemma login_files_new_user_witness :
  let r := handle sample_clock (Login login_p1_tablet) boot in
  body_dict login_p1_tablet =
    Some [("user_id", JStr "p1"); ("device_id", JStr "tablet")] /\
  users boot !! KStr "p1" = None /\
  reply_data "user" r.1 =
    Some (user_json (new_user (JStr "p1") (JStr "tablet") (sample_clock 2))) /\
  users r.2 !! KStr "p1" =
    Some (new_user (JStr "p1") (JStr "tablet") (sample_clock 2)).
Proof.
  cbn zeta. split; [reflexivity |]. split; [reflexivity |].
  destruct (login_files_new_user sample_clock login_p1_tablet boot
              [("user_id", JStr "p1"); ("device_id", JStr "tablet")] (KStr "p1")
              eq_refl eq_refl eq_refl) as (_ & Huser & Hstore).
  split; [exact Huser |]. rewrite Hstore. apply lookup_insert_eq.
Defined.

(** X9.  A login of a user already filed returns the filed record as it
    is and leaves [users] untouched, even when the request names another
    device: the device id of the request goes to the new session only. *)
Theorem login_keeps_known_user clock (req : request) (w : world) fields k u :
  body_dict req = Some fields ->
  to_key (expected_user_id fields) = Some k ->
  users w !! k = Some u ->
  let r := handle clock (Login req) w in
  let tok := token_text (expected_user_id fields) (clock (reads w)) in
  reply_status r.1 = 200 /\
  reply_data "user" r.1 = Some (user_json u) /\
  users r.2 = users w /\
  sessions r.2 !! tok =
    Some {| s_user_id := expected_user_id fields;
            s_device_id := expected_device_id fields;
            s_created_at := isoformat (wall (clock (S (reads w)))) |}.
Proof.
  intros Hbody Hkey Hold. cbn zeta.
  destruct (login_returns clock req w fields k Hbody Hkey)
    as (u' & ts & w' & Hrun & Hu & Hs & Hcase & _).
  rewrite (handle_login_returns _ _ _ _ _ Hrun). cbn [fst snd].
  assert (u' = u) as -> by (destruct Hcase as [H | [H _]]; congruence).
  split; [reflexivity |]. split; [reflexivity |].
  split; [rewrite Hu; apply insert_id, Hold |].
  rewrite Hs. apply lookup_insert_eq.
Qed.

Lemma login_keeps_known_user_witness :
  let w := run sample_clock [Login login_p1] boot in
  let r := handle sample_clock (Login login_p1_tablet) w in
  let u := new_user (JStr "p1") (JStr "unknown") (sample_clock 2) in
  users w !! KStr "p1" = Some u /\
  reply_data "user" r.1 = Some (user_json u) /\
  users r.2 = users w /\
  exists s, sessions r.2 !! "session_p1_1715938200.111151" = Some s /\
            s_device_id s = JStr "tablet".
Proof.
  cbn zeta.
  assert (Hold : users (run sample_clock [Login login_p1] boot) !! KStr "p1" =
                 Some (new_user (JStr "p1") (JStr "unknown") (sample_clock 2)))
    by (vm_compute; reflexivity).
  split; [exact Hold |].
  destruct (login_keeps_known_user sample_clock login_p1_tablet _
              [("user_id", JStr "p1"); ("device_id", JStr "tablet")] (KStr "p1") _
              eq_refl eq_refl Hold) as (_ & Huser & Hstore & Hsess).
  split; [exact Huser |]. split; [exact Hstore |].
  eexists. split; [exact Hsess | reflexivity].
Defined.

(** X10.  A body announced as JSON that is not a JSON object makes the
    login fail before it writes anything: a 400 when the body does not
    parse, a 500 when it parses to something else, and both dictionaries
    as they were. *)
Theorem login_bad_body_changes_nothing clock (req : request) (w : world) :
  body_dict req = None ->
  let r := handle clock (Login req) w in
  (json_body req = None /\ r.1 = Abort 400 \/
   json_body req <> None /\ r.1 = Abort 500) /\
  users r.2 = users w /\ sessions r.2 = sessions w.
Proof.
  intros Hbody. cbn zeta.
  destruct (login_bad_body clock req w Hbody)
    as (e & w' & Hrun & Hexn & Hu & Hs).
  unfold handle, serve, view. rewrite Hrun. cbn [fst snd].
  split; [| auto].
  destruct Hexn as [[Hnone ->] | [Hsome ->]]; [left | right]; auto.
Qed.

Lemma login_bad_body_changes_nothing_witness :
  let w := run sample_clock [Login login_p1] boot in
  let r := handle sample_clock (Login login_array_body) w in
  body_dict login_array_body = None /\
  r.1 = Abort 500 /\ users r.2 = users w /\ sessions r.2 = sessions w.
Proof.
  cbn zeta. split; [reflexivity |].
  pose proof (login_bad_body_changes_nothing sample_clock login_array_body
                (run sample_clock [Login login_p1] boot) eq_refl) as H.
  cbn zeta in H. destruct H as (Hcase & Hu & Hs).
  split; [| split; [exact Hu | exact Hs]].
  destruct Hcase as [[Hnone _] | [_ H500]]; [discriminate Hnone | exact H500].
Defined.

(** X11.  A login whose user id is a list or a dictionary is answered
    with a 500 and files no user, yet its session is stored, under the
    token made of the text of that id. *)
Theorem login_unhashable_leaves_session clock (req : request) (w : world) fields :
  body_dict req = Some fields ->
  to_key (expected_user_id fields) = None ->
  let r := handle clock (Login req) w in
  r.1 = Abort 500 /\
  users r.2 = users w /\
  sessions r.2 !! token_text (expected_user_id fields) (clock (reads w)) =
    Some {| s_user_id := expected_user_id fields;
            s_device_id := expected_device_id fields;
            s_created_at := isoformat (wall (clock (S (reads w)))) |}.
Proof.
  intros Hbody Hkey. cbn zeta.
  destruct (login_unhashable clock req w fields Hbody Hkey)
    as (w' & Hrun & Hu & Hs).
  unfold handle, serve, view. rewrite Hrun. cbn [fst snd].
  split; [reflexivity |]. split; [exact Hu |].
  rewrite Hs. apply lookup_insert_eq.
Qed.

Lemma login_unhashable_leaves_session_witness :
  let r := handle sample_clock (Login login_list_id) boot in
  body_dict login_list_id = Some [("user_id", JArr [JStr "p1"])] /\
  to_key (expected_user_id [("user_id", JArr [JStr "p1"])]) = None /\
  r.1 = Abort 500 /\
  users r.2 = users boot /\
  is_Some (sessions r.2 !! "session_['p1']_1715938200.111111").
Proof.
  cbn zeta. split; [reflexivity |]. split; [reflexivity |].
  destruct (login_unhashable_leaves_session sample_clock login_list_id boot
              [("user_id", JArr [JStr "p1"])] eq_refl eq_refl)
    as (H500 & Hu & Hs).
  split; [exact H500 |]. split; [exact Hu |].
  eexists. exact Hs.
Defined.

End LoginFacts.

(** ** The replies *)

Module ReplyFacts.
Import Py Clock Flask Servers Props Samples Journal MoreSamples.
Import PyFacts ClockFacts HandlerFacts Protected LoginRoute StoreFacts.

(** The session is there, its user id cannot be hashed: line 125 and line
    168 raise. *)
Lemma protected_unhashable clock (req : request) (w : world) s :
  sessions w !! bearer_token req = Some s ->
  to_key (s_user_id s) = None ->
  (handle clock (Session req) w).1 = Abort 500 /\
  (handle clock (UserProfile req) w).1 = Abort 500.
Proof.
  intros Hsome Hkey.
  destruct (log_request_run req w) as (w1 & Hlog & Hu & Hs & Hr).
  split.
  - unfold handle, serve, view, session. cbn zeta.
    remember (bearer_token req) as tok eqn:Htok. clear Htok.
    unfold bind at 1. rewrite Hlog.
    unfold bind at 1, sessions_contains. rewrite Hs, Hsome. cbn -[create_response].
    unfold bind at 1, sessions_getitem. rewrite Hs, Hsome.
    unfold bind at 1, users_get, hash. rewrite Hkey. reflexivity.
  - unfold handle, serve, view, user_profile. cbn zeta.
    remember (bearer_token req) as tok eqn:Htok. clear Htok.
    unfold bind at 1. rewrite Hlog.
    unfold bind at 1, sessions_contains. rewrite Hs, Hsome. cbn -[create_response].
    unfold bind at 1, sessions_getitem. rewrite Hs, Hsome.
    unfold bind at 1, users_get, hash. rewrite Hkey. reflexivity.
Qed.

(** The three routes without state. *)
Lemma stateless_replies clock (req : request) (w : world) :
  (handle clock (Home req) w).1 =
    Reply 200 (envelope true (isoformat (wall (clock (reads w))))
                 "Wibble Wobble Private Server - Running" []) /\
  (handle clock (Health req) w).1 =
    Reply 200 (envelope true (isoformat (wall (clock (reads w))))
                 "Server is running" []) /\
  (handle clock (GameStart req) w).1 =
    Reply 200 (envelope true (isoformat (wall (clock (reads w)))) EmptyString
                 [("data", JObj [("stage_id", JInt 1);
                                 ("difficulty", JStr "normal")])]).
Proof.
  destruct (log_request_run req w) as (w1 & Hlog & Hu & Hs & Hr).
  repeat split.
  - unfold handle, serve, view, home. unfold bind at 1. rewrite Hlog.
    unfold ok, bind. rewrite create_response_run, Hr. reflexivity.
  - unfold handle, serve, view, health. unfold bind at 1. rewrite Hlog.
    unfold ok, bind. rewrite create_response_run, Hr. reflexivity.
  - unfold handle, serve, view, game_start. unfold bind at 1. rewrite Hlog.
    unfold ok, bind. rewrite create_response_run, Hr. reflexivity.
Qed.

Lemma catch_all_reply clock (p : string) (req : request) (w : world) :
  (handle clock (CatchAll p req) w).1 =
  Reply 200 (envelope true (isoformat (wall (clock (reads w))))
               ("Endpoint /" +:+ p +:+ " - under development") []).
Proof.
  destruct (log_request_run req w) as (w1 & Hlog & Hu & Hs & Hr).
  unfold handle, serve, view, catch_all. unfold bind at 1. rewrite Hlog.
  unfold bind at 1, emit. unfold ok, bind.
  rewrite create_response_run. cbn. rewrite Hr. reflexivity.
Qed.

(** X12.  The home, health and game-start routes do not look at the
    request: each answers 200 with [success] true, the clock reading as
    timestamp and its fixed message; home and health carry no data, game
    start always carries stage 1 at normal difficulty; so two requests
    served in the same state get the same reply. *)
Theorem stateless_routes_ignore_request clock (req1 req2 : request) (w : world) :
  let ts := isoformat (wall (clock (reads w))) in
  (handle clock (Home req1) w).1 =
    Reply 200 (JObj [("success", JBool true); ("timestamp", JStr ts);
                     ("message", JStr "Wibble Wobble Private Server - Running")]) /\
  (handle clock (Health req1) w).1 =
    Reply 200 (JObj [("success", JBool true); ("timestamp", JStr ts);
                     ("message", JStr "Server is running")]) /\
  (handle clock (GameStart req1) w).1 =
    Reply 200 (JObj [("success", JBool true); ("timestamp", JStr ts);
                     ("message", JStr EmptyString);
                     ("data", JObj [("stage_id", JInt 1);
                                    ("difficulty", JStr "normal")])]) /\
  (handle clock (Home req2) w).1 = (handle clock (Home req1) w).1 /\
  (handle clock (Health req2) w).1 = (handle clock (Health req1) w).1 /\
  (handle clock (GameStart req2) w).1 = (handle clock (GameStart req1) w).1.
Proof.
  cbn zeta.
  destruct (stateless_replies clock req1 w) as (Hh1 & Hp1 & Hg1).
  destruct (stateless_replies clock req2 w) as (Hh2 & Hp2 & Hg2).
  rewrite Hh1, Hh2, Hp1, Hp2, Hg1, Hg2. repeat split.
Qed.

(** X13.  Every reply has one of four forms: the envelope with status 200
    and [success] true; on the two protected routes the envelope with
    status 401, [success] false and no data; from [login] a 400; from
    [login] and the protected routes a 500. *)
Theorem reply_forms clock (c : call) (w : world) :
  let r := (handle clock c w).1 in
  (exists ts msg d, r = Reply 200 (envelope true ts msg d)) \/
  (exists ts msg, r = Reply 401 (envelope false ts msg []) /\
                  exists req, c = Session req \/ c = UserProfile req) \/
  (r = Abort 400 /\ exists req, c = Login req) \/
  (r = Abort 500 /\
   exists req, c = Login req \/ c = Session req \/ c = UserProfile req).
Proof.
  cbn zeta.
  destruct c as [req | req | req | req | req | req | p req].
  - left. destruct (stateless_replies clock req w) as (-> & _). eauto.
  - left. destruct (stateless_replies clock req w) as (_ & -> & _). eauto.
  - destruct (body_dict req) as [fields |] eqn:Hbody.
    + destruct (to_key (expected_user_id fields)) as [k |] eqn:Hkey.
      * destruct (login_returns clock req w fields k Hbody Hkey)
          as (u & ts & w' & Hrun & _).
        rewrite (handle_login_returns _ _ _ _ _ Hrun). left. eauto.
      * destruct (login_unhashable clock req w fields Hbody Hkey)
          as (w' & Hrun & _).
        unfold handle, serve, view. rewrite Hrun.
        right. right. right. split; [reflexivity | eauto].
    + destruct (login_bad_body clock req w Hbody)
        as (e & w' & Hrun & Hexn & _).
      unfold handle, serve, view. rewrite Hrun.
      destruct Hexn as [[_ ->] | [_ ->]]; right; right;
        [left | right]; (split; [reflexivity | eauto]).
  - destruct (sessions w !! bearer_token req) as [s |] eqn:Hs.
    + destruct (to_key (s_user_id s)) as [k |] eqn:Hkey.
      * rewrite (session_known clock req w s k Hs Hkey). left. eauto.
      * destruct (protected_unhashable clock req w s Hs Hkey) as [-> _].
        right. right. right. split; [reflexivity | eauto].
    + rewrite (session_unknown clock req w Hs). right. left. eauto 6.
  - left. destruct (stateless_replies clock req w) as (_ & _ & ->). eauto.
  - destruct (sessions w !! bearer_token req) as [s |] eqn:Hs.
    + destruct (to_key (s_user_id s)) as [k |] eqn:Hkey.
      * rewrite (user_profile_known clock req w s k Hs Hkey). left. eauto.
      * destruct (protected_unhashable clock req w s Hs Hkey) as [_ ->].
        right. right. right. split; [reflexivity | eauto 6].
    + rewrite (user_profile_unknown clock req w Hs). right. left. eauto 6.
  - left. rewrite (catch_all_reply clock p req w). eauto.
Qed.

(** X14.  Sessions are never invalidated: in a state where every session
    has its user, a token that is accepted stays accepted, by both
    protected routes, after any further requests whose logins carry
    hashable user ids. *)
Theorem sessions_stay_valid clock (cs : list call) (req : request) (w : world) :
  sessions_have_users w ->
  Forall hashable_login cs ->
  is_Some (sessions w !! bearer_token req) ->
  let w' := run clock cs w in
  reply_status (handle clock (Session req) w').1 = 200 /\
  reply_field "success" (handle clock (Session req) w').1 = Some (JBool true) /\
  reply_status (handle clock (UserProfile req) w').1 = 200 /\
  reply_field "success" (handle clock (UserProfile req) w').1 = Some (JBool true).
Proof.
  intros Hinv Hcs Htok. cbn zeta.
  pose proof (run_sessions_have_users clock cs w Hcs Hinv) as Hinv'.
  destruct (run_sessions_persist clock cs w _ Htok) as [s Hs].
  destruct (Hinv' _ _ Hs) as (k & Hkey & [u Hu]).
  rewrite (session_known clock req _ s k Hs Hkey).
  rewrite (user_profile_known clock req _ s k Hs Hkey).
  rewrite Hu. repeat split.
Qed.

Lemma sessions_stay_valid_witness :
  let w := run sample_clock [Login login_p1] boot in
  let req := with_auth "GET" "/api/session" "Bearer session_p1_1715938200.111111" in
  let cs := [Login login_p1_tablet; Login login_truncated;
             CatchAll "logout" (bare "POST" "/logout" [])] in
  sessions_have_users w /\
  Forall hashable_login cs /\
  is_Some (sessions w !! bearer_token req) /\
  reply_status (handle sample_clock (Session req) (run sample_clock cs w)).1 = 200.
Proof.
  cbn zeta.
  assert (Hinv : sessions_have_users (run sample_clock [Login login_p1] boot)).
  { apply run_sessions_have_users; [| apply boot_sessions_have_users].
    repeat constructor. intros fields [= <-]. eexists. reflexivity. }
  assert (Hcs : Forall hashable_login
            [Login login_p1_tablet; Login login_truncated;
             CatchAll "logout" (bare "POST" "/logout" [])]).
  { repeat constructor.
    - intros fields [= <-]. eexists. reflexivity.
    - intros fields [=]. }
  assert (Htok : is_Some (sessions (run sample_clock [Login login_p1] boot)
            !! bearer_token (with_auth "GET" "/api/session"
                               "Bearer session_p1_1715938200.111111")))
    by (vm_compute; eexists; reflexivity).
  split; [exact Hinv |]. split; [exact Hcs |]. split; [exact Htok |].
  exact (proj1 (sessions_stay_valid sample_clock _ _ _ Hinv Hcs Htok)).
Defined.

(** X15.  A session whose user is not in [users] is still accepted: the
    session check answers 200 with an empty [user] object, and the profile
    answers 200 with [success] true and no [data] field at all, the empty
    object being false for line 47. *)
Theorem session_without_user clock (req : request) (w : world) s k :
  sessions w !! bearer_token req = Some s ->
  to_key (s_user_id s) = Some k ->
  users w !! k = None ->
  (handle clock (Session req) w).1 =
    Reply 200 (envelope true (isoformat (wall (clock (reads w)))) EmptyString
                 [("data", JObj [("session", session_json s);
                                 ("user", JObj [])])]) /\
  (handle clock (UserProfile req) w).1 =
    Reply 200 (envelope true (isoformat (wall (clock (reads w)))) EmptyString []).
Proof.
  intros Hs Hkey Hnone.
  rewrite (session_known clock req w s k Hs Hkey).
  rewrite (user_profile_known clock req w s k Hs Hkey).
  rewrite Hnone. split; reflexivity.
Qed.

Lemma session_without_user_witness :
  let req := with_auth "GET" "/user/profile" "Bearer session_ghost_1715938200.5" in
  is_Some (sessions orphan_world !! bearer_token req) /\
  users orphan_world !! KStr "ghost" = None /\
  reply_data "user" (handle sample_clock (Session req) orphan_world).1 = Some (JObj []) /\
  reply_status (handle sample_clock (UserProfile req) orphan_world).1 = 200 /\
  reply_field "data" (handle sample_clock (UserProfile req) orphan_world).1 = None.
Proof.
  cbn zeta. split; [vm_compute; eexists; reflexivity |]. split; [reflexivity |].
  destruct (session_without_user sample_clock
              (with_auth "GET" "/user/profile" "Bearer session_ghost_1715938200.5")
              orphan_world
              {| s_user_id := JStr "ghost"; s_device_id := JStr "phone";
                 s_created_at := "2024-05-17T09:30:00.500000" |} (KStr "ghost"))
    as [Hsess Hprof]; [vm_compute; reflexivity | reflexivity | reflexivity |].
  rewrite Hsess, Hprof. repeat split.
Defined.

(** X16.  The session a failed login leaves behind (a user id that is a
    list or a dictionary) cannot be used: presenting its token makes both
    protected routes answer 500. *)
Theorem session_of_failed_login_fails clock (req auth : request) (w : world) fields :
  body_dict req = Some fields ->
  to_key (expected_user_id fields) = None ->
  bearer_token auth = token_text (expected_user_id fields) (clock (reads w)) ->
  let w' := (handle clock (Login req) w).2 in
  (handle clock (Session auth) w').1 = Abort 500 /\
  (handle clock (UserProfile auth) w').1 = Abort 500.
Proof.
  intros Hbody Hkey Htok. cbn zeta.
  destruct (login_unhashable clock req w fields Hbody Hkey)
    as (w' & Hrun & _ & Hs).
  replace (handle clock (Login req) w).2 with w'
    by (unfold handle, serve, view; rewrite Hrun; reflexivity).
  apply (protected_unhashable clock auth w'
           {| s_user_id := expected_user_id fields;
              s_device_id := expected_device_id fields;
              s_created_at := isoformat (wall (clock (S (reads w)))) |}).
  - rewrite Htok, Hs. apply lookup_insert_eq.
  - exact Hkey.
Qed.

Lemma session_of_failed_login_fails_witness :
  let auth := with_auth "GET" "/api/session"
                "Bearer session_['p1']_1715938200.111111" in
  let w' := (handle sample_clock (Login login_list_id) boot).2 in
  body_dict login_list_id = Some [("user_id", JArr [JStr "p1"])] /\
  bearer_token auth =
    token_text (expected_user_id [("user_id", JArr [JStr "p1"])])
      (sample_clock (reads boot)) /\
  (handle sample_clock (Session auth) w').1 = Abort 500 /\
  (handle sample_clock (UserProfile auth) w').1 = Abort 500.
Proof.
  cbn zeta. split; [reflexivity |]. split; [vm_compute; reflexivity |].
  apply (session_of_failed_login_fails sample_clock login_list_id
           (with_auth "GET" "/api/session" "Bearer session_['p1']_1715938200.111111")
           boot [("user_id", JArr [JStr "p1"])]);
    [reflexivity | reflexivity | vm_compute; reflexivity].
Defined.

(** X17.  After a login whose token lines 121 and 164 read back
    unchanged, the session check and the profile both answer 200 with the
    user record of the login reply. *)
Theorem round_trip_after_login clock (req auth : request) (w : world) fields k :
  body_dict req = Some fields ->
  to_key (expected_user_id fields) = Some k ->
  bearer_token auth = token_text (expected_user_id fields) (clock (reads w)) ->
  let r := handle clock (Login req) w in
  let r1 := handle clock (Session auth) r.2 in
  let r2 := handle clock (UserProfile auth) r.2 in
  exists u,
    reply_data "user" r.1 = Some (user_json u) /\
    reply_status r1.1 = 200 /\ reply_field "success" r1.1 = Some (JBool true) /\
    reply_data "user" r1.1 = Some (user_json u) /\
    reply_status r2.1 = 200 /\ reply_field "success" r2.1 = Some (JBool true) /\
    reply_field "data" r2.1 = Some (user_json u).
Proof.
  intros Hbody Hkey Htok. cbn zeta.
  destruct (login_returns clock req w fields k Hbody Hkey)
    as (u & ts & w' & Hrun & Hu & Hs & _ & _).
  rewrite (handle_login_returns _ _ _ _ _ Hrun). cbn [fst snd].
  exists u. split; [reflexivity |].
  apply (issued_token_accepted clock auth w'
           {| s_user_id := expected_user_id fields;
              s_device_id := expected_device_id fields;
              s_created_at := isoformat (wall (clock (S (reads w)))) |} k u).
  - rewrite Htok, Hs. apply lookup_insert_eq.
  - exact Hkey.
  - rewrite Hu. apply lookup_insert_eq.
Qed.

Lemma round_trip_after_login_witness :
  let auth := with_auth "GET" "/user/profile" "Bearer session_p1_1715938200.111111" in
  let r := handle sample_clock (Login login_p1) boot in
  body_dict login_p1 = Some [("user_id", JStr "p1")] /\
  bearer_token auth =
    token_text (expected_user_id [("user_id", JStr "p1")]) (sample_clock (reads boot)) /\
  exists u,
    reply_data "user" r.1 = Some (user_json u) /\
    reply_data "user" (handle sample_clock (Session auth) r.2).1 = Some (user_json u) /\
    reply_field "data" (handle sample_clock (UserProfile auth) r.2).1 = Some (user_json u).
Proof.
  cbn zeta. split; [reflexivity |]. split; [vm_compute; reflexivity |].
  destruct (round_trip_after_login sample_clock login_p1
              (with_auth "GET" "/user/profile" "Bearer session_p1_1715938200.111111")
              boot [("user_id", JStr "p1")] (KStr "p1"))
    as (u & Hlogin & _ & _ & Hsess & _ & _ & Hprof);
    [reflexivity | reflexivity | vm_compute; reflexivity |].
  exists u. auto.
Defined.

(** X18.  In every state the server can reach, a request whose token does
    not start with [session_] (a missing or empty header among them) is
    turned down with a 401 by both protected routes. *)
Theorem foreign_token_rejected clock (req : request) (w : world) :
  reachable clock w ->
  starts_with "session_" (bearer_token req) = false ->
  reply_status (handle clock (Session req) w).1 = 401 /\
  reply_field "success" (handle clock (Session req) w).1 = Some (JBool false) /\
  reply_field "message" (handle clock (Session req) w).1 = Some (JStr "Invalid session") /\
  reply_status (handle clock (UserProfile req) w).1 = 401 /\
  reply_field "success" (handle clock (UserProfile req) w).1 = Some (JBool false) /\
  reply_field "message" (handle clock (UserProfile req) w).1 = Some (JStr "Unauthorized").
Proof.
  intros Hw Hpre.
  assert (Hnone : sessions w !! bearer_token req = None).
  { destruct (sessions w !! bearer_token req) as [s |] eqn:Hlook; [| reflexivity].
    apply (reachable_tokens_prefixed clock w Hw) in Hlook. congruence. }
  rewrite (session_unknown clock req w Hnone).
  rewrite (user_profile_unknown clock req w Hnone).
  repeat split.
Qed.

Lemma foreign_token_rejected_witness :
  let w := run sample_clock [Login login_p1] boot in
  let req := with_auth "GET" "/api/session" "Bearer p1" in
  reachable sample_clock w /\
  starts_with "session_" (bearer_token req) = false /\
  reply_status (handle sample_clock (Session req) w).1 = 401 /\
  reply_status (handle sample_clock (UserProfile (bare "GET" "/user/profile" [])) w).1 = 401.
Proof.
  cbn zeta.
  assert (Hw : reachable sample_clock (run sample_clock [Login login_p1] boot))
    by (eexists; reflexivity).
  split; [exact Hw |]. split; [reflexivity |].
  split.
  - exact (proj1 (foreign_token_rejected sample_clock
                    (with_auth "GET" "/api/session" "Bearer p1") _ Hw eq_refl)).
  - destruct (foreign_token_rejected sample_clock
                (bare "GET" "/user/profile" []) _ Hw eq_refl)
      as (_ & _ & _ & H401 & _).
    exact H401.
Defined.

(** X19.  The [Bearer ] prefix is optional for a token without [Bearer ]
    inside: sent raw or behind the prefix, a stored token whose user is
    filed is accepted by both protected routes, with the same replies. *)
Theorem bearer_prefix_optional clock (m p tok : string) (w : world) s k u :
  contains "Bearer " tok = false ->
  sessions w !! tok = Some s ->
  to_key (s_user_id s) = Some k ->
  users w !! k = Some u ->
  let raw := with_auth m p tok in
  let prefixed := with_auth m p ("Bearer " +:+ tok) in
  (handle clock (Session raw) w).1 = (handle clock (Session prefixed) w).1 /\
  (handle clock (UserProfile raw) w).1 = (handle clock (UserProfile prefixed) w).1 /\
  reply_status (handle clock (Session raw) w).1 = 200 /\
  reply_data "user" (handle clock (Session raw) w).1 = Some (user_json u) /\
  reply_status (handle clock (UserProfile raw) w).1 = 200 /\
  reply_field "data" (handle clock (UserProfile raw) w).1 = Some (user_json u).
Proof.
  intros Habsent Hs Hkey Hu. cbn zeta.
  destruct (bearer_token_reads_back m p tok Habsent) as [Hraw Hpre].
  rewrite <- Hraw in Hs at 1.
  rewrite (session_known clock (with_auth m p tok) w s k Hs Hkey).
  rewrite (user_profile_known clock (with_auth m p tok) w s k Hs Hkey).
  rewrite Hraw, <- Hpre in Hs.
  rewrite (session_known clock (with_auth m p ("Bearer " +:+ tok)) w s k Hs Hkey).
  rewrite (user_profile_known clock (with_auth m p ("Bearer " +:+ tok)) w s k Hs Hkey).
  rewrite Hu. repeat split.
Qed.

Lemma bearer_prefix_optional_witness :
  let w := run sample_clock [Login login_p1] boot in
  let tok := "session_p1_1715938200.111111" in
  contains "Bearer " tok = false /\
  is_Some (sessions w !! tok) /\
  reply_status (handle sample_clock (Session (with_auth "POST" "/session" tok)) w).1 = 200 /\
  (handle sample_clock (Session (with_auth "POST" "/session" tok)) w).1 =
  (handle sample_clock (Session (with_auth "POST" "/session" ("Bearer " +:+ tok))) w).1.
Proof.
  cbn zeta. split; [reflexivity |].
  split; [vm_compute; eexists; reflexivity |].
  destruct (bearer_prefix_optional sample_clock "POST" "/session"
              "session_p1_1715938200.111111"
              (run sample_clock [Login login_p1] boot)
              {| s_user_id := JStr "p1"; s_device_id := JStr "unknown";
                 s_created_at := isoformat (wall (sample_clock 1)) |}
              (KStr "p1")
              (new_user (JStr "p1") (JStr "unknown") (sample_clock 2)))
    as (Hsame & _ & H200 & _);
    [reflexivity | vm_compute; reflexivity | reflexivity | vm_compute; reflexivity |].
  split; [exact H200 | exact Hsame].
Defined.

End ReplyFacts.

(** ** Routing *)

Module Routes.
Import Py Clock Flask Servers Props Samples Routing.
Import PyFacts ClockFacts HandlerFacts ReplyFacts.













End Routes.

(** ** The text of values, on characters that [repr] escapes *)

Module ReprExamples.
Import Py Clock Flask Servers Props Samples.

(** A no-break space, a soft hyphen and a control character inside a
    list: the text line 88 puts in the token. *)
Example repr_of_escaped_characters :
  py_str (JArr [JStr (String (ascii_of_nat 160) EmptyString);
                JStr (String (ascii_of_nat 173) "x");
                JStr (String (ascii_of_nat 133) EmptyString);
                JStr (String (ascii_of_nat 233) EmptyString)]) =
  "['\xa0', '\xadx', '\x85', '" +:+ String (ascii_of_nat 233) "']".
Proof. vm_compute. reflexivity. Qed.

(** The session a login with the user id [["\u00a0"]] leaves behind. *)
Example token_of_escaped_list_id :
  let req := post_json "/login" EmptyString
               (Some (JObj [("user_id",
                             JArr [JStr (String (ascii_of_nat 160) EmptyString)])])) in
  map fst (map_to_list (sessions (handle sample_clock (Login req) boot).2)) =
  ["session_['\xa0']_1715938200.111111"].
Proof. vm_compute. reflexivity. Qed.

End ReprExamples.
